(** * GraderClient: a shallow embedding of [graderclient/__init__.py]

    The client wraps five HTTP operations of the Act Grader service behind
    validators.  The embedding follows the Python source: dynamically typed
    values are an inductive type, exceptions are results, and every method
    that reads the file system, touches [self] or talks to the network is a
    computation in a state-and-exception monad over an explicit world. *)

From Stdlib Require Import ZArith Ascii String.
From Stdlib.Strings Require Import Byte.
From stdpp Require Import base option list gmap strings.

Local Open Scope Z_scope.
Set Warnings "-register-all".

(** ** Python values *)

(** The values the client can meet.  [PPath] is a [pathlib.PurePath] and
    carries its [os.fspath]; [PDict] is a dict with string keys, as
    [Response.json()] returns for a JSON object. *)
Inductive PyVal : Type :=
  | PNone
  | PBool (b : bool)
  | PInt (n : Z)
  | PStr (s : string)
  | PBytes (b : list byte)
  | PPath (s : string)
  | PDict (d : list (string * PyVal)).

(** [x is None] *)
Definition is_None (x : PyVal) : bool :=
  match x with PNone => true | _ => false end.

(** [isinstance(x, str) or isinstance(x, pathlib.PurePath)], giving the
    [os.fspath] of the value when it holds. *)
Definition as_path (x : PyVal) : option string :=
  match x with
  | PStr s | PPath s => Some s
  | _ => None
  end.

(** [s == v] for a [str] on the left: only another equal [str] compares
    equal. *)
Definition str_eq (s : string) (v : PyVal) : bool :=
  match v with
  | PStr t => String.eqb s t
  | _ => false
  end.

(** ** Exceptions *)

Inductive PyExcClass : Type :=
  | ValueError | TypeError | FileNotFoundError | IsADirectoryError
  | NotADirectoryError | Warning | KeyError | OSError | JSONDecodeError | RequestException.

(** One constructor per [raise] statement of the source, with the values its
    f-string interpolates; [Builtin] stands for an exception raised by the
    interpreter or a library ([open], [dict.__getitem__], [os.path.join],
    [Response.json], [requests]). *)
Inductive Exc : Type :=
  | UrlIsNone
  | UrlNotStr
  | UrlBadPrefix (url : string)
  | OAuthIsNone
  | OAuthNotStr
  | ImagePathNotPath
  | ImageBadExtension
  | ImageMissing (path : PyVal)
  | UriIsNone
  | UriNotStr
  | PathNotPath (path : PyVal)
  | DirectoryMissing (directory : string)
  | WrongExtension (extension : PyVal)
  | JoinUrlNotStr
  | JoinEndpointNotStr
  | NotAJsonFile
  | NotAnImageFile
  | AnswersNotFound (uri : PyVal)
  | ConfirmationNotFound (uri : PyVal)
  | Builtin (cls : PyExcClass) (origin : string).

(** The Python class each [raise] statement instantiates. *)
Definition exc_class (e : Exc) : PyExcClass :=
  match e with
  | UrlIsNone => ValueError
  | UrlNotStr => TypeError
  | UrlBadPrefix _ => ValueError
  | OAuthIsNone => ValueError
  | OAuthNotStr => TypeError
  | ImagePathNotPath => TypeError
  | ImageBadExtension => FileNotFoundError
  | ImageMissing _ => FileNotFoundError
  | UriIsNone => ValueError
  | UriNotStr => TypeError
  | PathNotPath _ => TypeError
  | DirectoryMissing _ => FileNotFoundError
  | WrongExtension _ => ValueError
  | JoinUrlNotStr => TypeError
  | JoinEndpointNotStr => TypeError
  | NotAJsonFile => Warning
  | NotAnImageFile => Warning
  | AnswersNotFound _ => FileNotFoundError
  | ConfirmationNotFound _ => FileNotFoundError
  | Builtin cls _ => cls
  end.

(** An f-string: literal text and interpolated values, in order. *)
Inductive Fragment : Type :=
  | Lit (text : string)
  | Val (v : PyVal).

(** The message each [raise] statement builds. *)
Definition exc_message (e : Exc) : list Fragment :=
  match e with
  | UrlIsNone =>
      [Lit "The URL is currently None. Try passing the URL explicitly."]
  | UrlNotStr => [Lit "The URL must be a string."]
  | UrlBadPrefix url =>
      [Lit "The URL "; Val (PStr url);
       Lit " does not appear to have a properly formed 'http://' or 'https://' prefix"]
  | OAuthIsNone =>
      [Lit "The OAuth is currently None. Try passing it explicitly."]
  | OAuthNotStr => [Lit "The OAuth must be a string."]
  | ImagePathNotPath => [Lit "The image path must be a string or posix path."]
  | ImageBadExtension =>
      [Lit "The image file must have a jpg, png, or tif extension."]
  | ImageMissing path =>
      [Lit "The image file "; Val path; Lit " does not appear to exist."]
  | UriIsNone => [Lit "The URI is currently None. Try passing it explicitly."]
  | UriNotStr => [Lit "The URI must be a string."]
  | PathNotPath path =>
      [Lit "The path "; Val path; Lit " must be a string or posix path."]
  | DirectoryMissing directory =>
      [Lit "The directory '"; Val (PStr directory);
       Lit "' does not appear to exist."]
  | WrongExtension extension =>
      [Lit "To properly receive data, the destination file must have a ";
       Val extension; Lit " extension."]
  | JoinUrlNotStr => [Lit "The URL must be a string."]
  | JoinEndpointNotStr => [Lit "The endpoint must be a string."]
  | NotAJsonFile =>
      [Lit "The http request returned a response, but it does not appear to contain a json file. Examine 'response.content' to determine what was actually returned."]
  | NotAnImageFile =>
      [Lit "The http request returned a response, but it does not appear to contain an image file. Examine 'response.content' to determine what was actually returned."]
  | AnswersNotFound uri =>
      [Lit "The extracted answers could not be found at the URI "; Val uri;
       Lit ". Verify that you are using the exact URI returned by `GraderClient.process_image()`."]
  | ConfirmationNotFound uri =>
      [Lit "The confirmation image could not be found at the URI "; Val uri;
       Lit ". Verify that you are using the exact URI returned by `GraderClient.process_image()`."]
  | Builtin _ origin => [Lit origin]
  end.

(** The error taxonomy of the specification, as it names the failures of the
    validators and of the download operations. *)
Inductive ErrorKind : Type :=
  | InvalidArgument | InvalidFormat | NotFound | RemoteNotFound
  | ContentMismatch | Propagated.

Definition error_kind (e : Exc) : ErrorKind :=
  match e with
  | UrlIsNone | UrlNotStr => InvalidArgument
  | UrlBadPrefix _ => InvalidFormat
  | OAuthIsNone | OAuthNotStr => InvalidArgument
  | ImagePathNotPath => InvalidArgument
  | ImageBadExtension | ImageMissing _ => NotFound
  | UriIsNone | UriNotStr => InvalidArgument
  | PathNotPath _ => InvalidArgument
  | DirectoryMissing _ => NotFound
  | WrongExtension _ => InvalidFormat
  | JoinUrlNotStr | JoinEndpointNotStr => InvalidArgument
  | NotAJsonFile | NotAnImageFile => ContentMismatch
  | AnswersNotFound _ | ConfirmationNotFound _ => RemoteNotFound
  | Builtin _ _ => Propagated
  end.

(** The result of a call: a value or a raised exception. *)
Inductive Outcome (A : Type) : Type :=
  | Returns (a : A)
  | Raises (e : Exc).
Arguments Returns {A} a.
Arguments Raises {A} e.

(** ** Strings and [posixpath] *)

(** [os.path] is [posixpath]: the separator is [/].  The string methods
    are given for the one-character arguments [posixpath] passes. *)

Module Str.

(** [s[:n]] and [s[n:]] for [n >= 0] *)
Definition take (n : Z) (s : string) : string :=
  String.substring 0 (Z.to_nat n) s.
Definition drop (n : Z) (s : string) : string :=
  String.substring (Z.to_nat n) (String.length s) s.

(** [s[i:j]] for [0 <= i <= j] *)
Definition slice (i j : Z) (s : string) : string :=
  String.substring (Z.to_nat i) (Z.to_nat (j - i)) s.

Fixpoint rfind_from (c : ascii) (s : string) (i last : Z) : Z :=
  match s with
  | EmptyString => last
  | String a s' =>
      rfind_from c s' (i + 1) (if Ascii.eqb a c then i else last)
  end.

(** [s.rfind(c)] for a one-character [c]: the last index of [c], or -1. *)
Definition rfind (c : ascii) (s : string) : Z := rfind_from c s 0 (-1).

(** [s.startswith(c)] and [s.endswith(c)] for a one-character [c]. *)
Definition startswith (c : ascii) (s : string) : bool :=
  String.eqb (take 1 s) (String c EmptyString).

Fixpoint endswith (c : ascii) (s : string) : bool :=
  match s with
  | EmptyString => false
  | String a EmptyString => Ascii.eqb a c
  | String _ s' => endswith c s'
  end.

(** [s.rstrip(c)] for a one-character [c]. *)
Fixpoint rstrip (c : ascii) (s : string) : string :=
  match s with
  | EmptyString => EmptyString
  | String a s' =>
      match rstrip c s' with
      | EmptyString => if Ascii.eqb a c then EmptyString else String a EmptyString
      | t => String a t
      end
  end.

(** [s == c * len(s)] *)
Fixpoint all_char (c : ascii) (s : string) : bool :=
  match s with
  | EmptyString => true
  | String a s' => Ascii.eqb a c && all_char c s'
  end.

End Str.

Module posixpath.

Definition sep : ascii := "/"%char.
Definition extsep : ascii := "."%char.

(** The loop of [genericpath._splitext] that skips the leading dots of
    the file name; [n] bounds the iterations by [dotIndex - filenameIndex]. *)
Fixpoint splitext_loop (p : string) (n : nat) (filenameIndex dotIndex : Z)
  : string * string :=
  match n with
  | O => (p, EmptyString)
  | S n' =>
      if negb (String.eqb (Str.slice filenameIndex (filenameIndex + 1) p)
                          (String extsep EmptyString))
      then (Str.take dotIndex p, Str.drop dotIndex p)
      else splitext_loop p n' (filenameIndex + 1) dotIndex
  end.

(** [os.path.splitext(p)] *)
Definition splitext (p : string) : string * string :=
  let sepIndex := Str.rfind sep p in
  let dotIndex := Str.rfind extsep p in
  if dotIndex >? sepIndex then
    let filenameIndex := sepIndex + 1 in
    splitext_loop p (Z.to_nat (dotIndex - filenameIndex)) filenameIndex dotIndex
  else (p, EmptyString).

(** [os.path.dirname(p)] *)
Definition dirname (p : string) : string :=
  let i := Str.rfind sep p + 1 in
  let head := Str.take i p in
  if negb (String.eqb head EmptyString) && negb (Str.all_char sep head)
  then Str.rstrip sep head
  else head.

(** [os.path.join(a, b)] on two strings *)
Definition join (a b : string) : string :=
  if Str.startswith sep b then b
  else if String.eqb a EmptyString || Str.endswith sep a then a +:+ b
  else a +:+ String sep EmptyString +:+ b.

End posixpath.

(** ** The world: file system, network and the client object *)

(** The file system as the client observes it: which directories exist and
    what each regular file holds, both keyed by the path string handed to
    [os.path.exists] and [open].  The model has no permissions. *)
Record FileSystem : Type := {
  dirs : gset string;
  files : gmap string (list byte)
}.

(** [os.path.exists(p)]; the empty path never exists. *)
Definition os_path_exists (fs : FileSystem) (p : string) : bool :=
  negb (String.eqb p "")
  && (bool_decide (p ∈ dirs fs)
      || match files fs !! p with Some _ => true | None => false end).

Inductive Method : Type := POST | PUT.

(** A call of [requests.post] or [requests.put]: the target, the [data] and
    [files] keyword arguments, and the [headers] and [auth] keyword
    arguments, [None] when the caller does not pass them. *)
Record Request : Type := {
  req_method : Method;
  req_url : string;
  req_data : option (list (string * PyVal));
  req_files : option (list (string * (string * list byte)));
  req_headers : option (list (string * string));
  req_auth : option (string * string)
}.

(** What the client reads of a [requests.Response]: [status_code],
    [content], and the result of calling [json()]. *)
Record Response : Type := {
  status_code : Z;
  content : PyVal;
  json : Outcome PyVal
}.

(** The attributes of a [GraderClient] instance; [self_endpoints] is the
    private dict [self.__endpoints]. *)
Record GraderClient : Type := {
  self_url : PyVal;
  self_oauth : PyVal;
  self_uri : PyVal;
  self_download_directory : PyVal;
  self_endpoints : gmap string string
}.

(** The state a method runs in.  [transport] is the HTTP transport (a mock,
    or the service): it answers a request, given the requests sent before
    it, with a response or with an exception of [requests]; [sent] records
    the requests handed to it, oldest first.  [descriptors] are the file
    descriptors the process holds open, readable and writable, each with
    the bytes a [read()] of it returns. *)
Record World : Type := {
  self : GraderClient;
  fs : FileSystem;
  transport : list Request → Request → Outcome Response;
  sent : list Request;
  descriptors : gmap Z (list byte)
}.

(** ** Computations *)

#[global] Instance Outcome_ret : MRet Outcome := λ _ a, Returns a.
#[global] Instance Outcome_bind : MBind Outcome := λ _ _ f m,
  match m with
  | Returns a => f a
  | Raises e => Raises e
  end.

(** A method body: it runs in a world and leaves a world, with a value or
    an exception. *)
Definition Py (A : Type) : Type := World → Outcome A * World.

#[global] Instance Py_ret : MRet Py := λ _ a w, (Returns a, w).
#[global] Instance Py_bind : MBind Py := λ _ _ f m w,
  match m w with
  | (Returns a, w') => f a w'
  | (Raises e, w') => (Raises e, w')
  end.

Definition raise {A : Type} (e : Exc) : Py A := λ w, (Raises e, w).

(** A call of a function that has no effect on the world. *)
Definition pure_call {A : Type} (o : Outcome A) : Py A := λ w, (o, w).

(** A call of a function that only reads the file system. *)
Definition fs_call {A : Type} (f : FileSystem → Outcome A) : Py A :=
  λ w, (f (fs w), w).

(** Reading an attribute of [self]. *)
Definition getattr_self {A : Type} (field : GraderClient → A) : Py A :=
  λ w, (Returns (field (self w)), w).

(** [self.__endpoints[name]] *)
Definition endpoints_getitem (name : string) : Py string :=
  λ w, match self_endpoints (self w) !! name with
       | Some e => (Returns e, w)
       | None => (Raises (Builtin KeyError name), w)
       end.

(** [os.path.isdir(p)] and [os.path.isfile(p)] *)
Definition os_path_isdir (fs : FileSystem) (p : string) : bool :=
  bool_decide (p ∈ dirs fs).

Definition os_path_isfile (fs : FileSystem) (p : string) : bool :=
  match files fs !! p with Some _ => true | None => false end.

(** What [open(path, ...)] opens: the file a path names, or a file
    descriptor the process already holds. *)
Inductive Target : Type :=
  | Named (p : string)
  | Descriptor (n : Z).

(** The target of [open(path, ...)]: a string or a path object names a file
    by its text, bytes by the text they encode; an integer is a file
    descriptor, which may not be negative, and a bool is the integer 0
    or 1; any other value is a [TypeError]. *)
Definition open_target (path : PyVal) : Outcome Target :=
  match path with
  | PStr p | PPath p => Returns (Named p)
  | PBytes b => Returns (Named (string_of_list_byte b))
  | PInt n =>
      if n <? 0 then Raises (Builtin ValueError "open")
      else Returns (Descriptor n)
  | PBool b => Returns (Descriptor (if b then 1 else 0))
  | PNone | PDict _ => Raises (Builtin TypeError "open")
  end.

(** The world once the descriptor [n] is closed, as the [with] statement
    leaves it on every exit. *)
Definition close (n : Z) (w : World) : World :=
  {| self := self w; fs := fs w; transport := transport w; sent := sent w;
     descriptors := delete n (descriptors w) |}.

(** The exception of [open(p, 'rb')] on a name that holds no file: the name
    is a directory, or its directory part is a regular file, or nothing is
    there. *)
Definition open_rb_error (fs : FileSystem) (p : string) : Exc :=
  if os_path_isdir fs p then Builtin IsADirectoryError p
  else if os_path_isfile fs (posixpath.dirname p)
  then Builtin NotADirectoryError p
  else Builtin FileNotFoundError p.

(** [with open(path, 'rb') as f: f.read()] *)
Definition open_rb_read (path : PyVal) : Py (list byte) :=
  λ w, match open_target path with
       | Returns (Named p) =>
           match files (fs w) !! p with
           | Some data => (Returns data, w)
           | None => (Raises (open_rb_error (fs w) p), w)
           end
       | Returns (Descriptor n) =>
           match descriptors w !! n with
           | Some data => (Returns data, close n w)
           | None => (Raises (Builtin OSError "open"), w)
           end
       | Raises e => (Raises e, w)
       end.

(** The exception of [open(p, 'wb')], if any: the empty name; a name that
    is a directory; a directory part that is a regular file, or that is
    not there at all.  A name without directory part lies in the current
    directory. *)
Definition open_wb_error (fs : FileSystem) (p : string) : option Exc :=
  if String.eqb p "" then Some (Builtin FileNotFoundError p)
  else if os_path_isdir fs p then Some (Builtin IsADirectoryError p)
  else
    let d := posixpath.dirname p in
    if String.eqb d "" || os_path_isdir fs d then None
    else if os_path_isfile fs d then Some (Builtin NotADirectoryError p)
    else Some (Builtin FileNotFoundError p).

(** [with open(path, 'wb') as f: f.write(data)]: when the file can be
    opened it is created or truncated and holds [data] afterwards.  (The
    download operations reach this call with a string or a path object
    only.) *)
Definition open_wb_write (path : PyVal) (data : list byte) : Py () :=
  λ w, match open_target path with
       | Returns (Named p) =>
           match open_wb_error (fs w) p with
           | Some e => (Raises e, w)
           | None =>
               (Returns (),
                {| self := self w;
                   fs := {| dirs := dirs (fs w);
                            files := <[p := data]> (files (fs w)) |};
                   transport := transport w;
                   sent := sent w;
                   descriptors := descriptors w |})
           end
       | Returns (Descriptor n) =>
           match descriptors w !! n with
           | Some _ => (Returns (), close n w)
           | None => (Raises (Builtin OSError "open"), w)
           end
       | Raises e => (Raises e, w)
       end.

(** [requests.post(url, data=data, files=files)] and [requests.put]: no
    other keyword argument is ever passed. *)
Definition requests_request (method : Method) (url : string)
    (data : option (list (string * PyVal)))
    (files_ : option (list (string * (string * list byte)))) : Py Response :=
  λ w, let req := {| req_method := method; req_url := url;
                     req_data := data; req_files := files_;
                     req_headers := None; req_auth := None |} in
       (transport w (sent w) req,
        {| self := self w; fs := fs w; transport := transport w;
           sent := sent w ++ [req]; descriptors := descriptors w |}).

(** [v[key]] for a string key *)
Definition getitem (v : PyVal) (key : string) : Outcome PyVal :=
  match v with
  | PDict d =>
      match list_find (λ kv, bool_decide (kv.1 = key)) d with
      | Some (_, (_, x)) => Returns x
      | None => Raises (Builtin KeyError key)
      end
  | _ => Raises (Builtin TypeError "__getitem__")
  end.

(** [response.json()['uri']] *)
Definition response_json_uri (response : Response) : Outcome PyVal :=
  body ← json response; getitem body "uri".

(** ** Validators *)

(** [GraderClient.validate_url] *)
Definition validate_url (url : PyVal) : Outcome bool :=
  match url with
  | PNone => Raises UrlIsNone
  | PStr u =>
      if String.eqb (Str.slice 0 7 u) "http://"
         || String.eqb (Str.slice 0 8 u) "https://"
      then Returns true
      else Raises (UrlBadPrefix u)
  | _ => Raises UrlNotStr
  end.

(** [GraderClient.validate_oauth] *)
Definition validate_oauth (oauth : PyVal) : Outcome bool :=
  match oauth with
  | PNone => Raises OAuthIsNone
  | PStr _ => Returns true
  | _ => Raises OAuthNotStr
  end.

(** The extensions [validate_image_path] accepts. *)
Definition image_extensions : list string :=
  ["jpg"; "jpeg"; "png"; "tif"; "tiff"].

(** [x in t] for a string [x] and a tuple of strings [t] *)
Definition str_in (x : string) (t : list string) : bool :=
  existsb (String.eqb x) t.

(** [os.path.splitext(p)[1][1:]]: the extension without its leading dot *)
Definition extension_of (p : string) : string :=
  Str.drop 1 (snd (posixpath.splitext p)).

(** [GraderClient.validate_image_path] *)
Definition validate_image_path (fs : FileSystem) (path : PyVal)
  : Outcome bool :=
  match as_path path with
  | None => Raises ImagePathNotPath
  | Some p =>
      let ext := snd (posixpath.splitext p) in
      if negb (str_in (Str.drop 1 ext) image_extensions)
      then Raises ImageBadExtension
      else if negb (os_path_exists fs p)
      then Raises (ImageMissing path)
      else Returns true
  end.

(** [GraderClient.validate_uri] *)
Definition validate_uri (uri : PyVal) : Outcome bool :=
  match uri with
  | PNone => Raises UriIsNone
  | PStr _ => Returns true
  | _ => Raises UriNotStr
  end.

(** [GraderClient.validate_path] *)
Definition validate_path (fs : FileSystem) (path extension : PyVal)
  : Outcome bool :=
  match as_path path with
  | None => Raises (PathNotPath path)
  | Some p =>
      let directory := posixpath.dirname p in
      let ext := snd (posixpath.splitext p) in
      let ext := Str.drop 1 ext in
      if negb (os_path_exists fs directory)
      then Raises (DirectoryMissing directory)
      else if String.eqb ext "" || negb (str_eq ext extension)
      then Raises (WrongExtension extension)
      else Returns true
  end.

(** [os.path.join(url, endpoint)] for a string [url]: the endpoint may be
    a string or a path; anything else is a [TypeError] of the library. *)
Definition os_path_join (url : string) (endpoint : PyVal) : Outcome string :=
  match as_path endpoint with
  | Some e => Returns (posixpath.join url e)
  | None => Raises (Builtin TypeError "os.path.join")
  end.

(** [GraderClient.join_endpoint] *)
Definition join_endpoint (url endpoint : PyVal) : Outcome string :=
  url ← match url with
        | PStr u => os_path_join u endpoint
        | _ => Raises JoinUrlNotStr
        end;
  match endpoint with
  | PStr _ => Returns url
  | _ => Raises JoinEndpointNotStr
  end.

(** The dict literal [__init__] stores in [self.__endpoints]. *)
Definition endpoints_table : gmap string string :=
  <["upload_image" := "api/upload/image"]>
  (<["process_image" := "api/process/image"]>
  (<["download_marked_answers" := "api/download/marked_answers"]>
  (<["download_confirmation_image" := "api/download/confirmation_image"]>
  (<["update_marked_answers" := "api/update/marked_answers"]> ∅)))).

(** [GraderClient.__init__]: the attributes of the new instance, or the
    exception of the validator that rejects an argument. *)
Definition __init__ (url oauth : PyVal) : Outcome GraderClient :=
  _ ← validate_url url;
  _ ← validate_oauth oauth;
  Returns {|
    self_url := url;
    self_oauth := oauth;
    self_uri := PNone;
    self_download_directory := PNone;
    self_endpoints := endpoints_table
  |}.

(** ** Request operations *)

(** [if x is None: x = self.field] *)
Definition default_to (x : PyVal) (field : GraderClient → PyVal)
  : Py PyVal :=
  if is_None x then getattr_self field else mret x.

(** [GraderClient.upload_image] *)
Definition upload_image (path url oauth : PyVal) : Py (Response * PyVal) :=
  _ ← fs_call (λ fs, validate_image_path fs path);
  endpoint ← endpoints_getitem "upload_image";
  url ← default_to url self_url;
  oauth ← default_to oauth self_oauth;
  _ ← pure_call (validate_url url);
  _ ← pure_call (validate_oauth oauth);
  url ← pure_call (join_endpoint url (PStr endpoint));
  img_data ← open_rb_read path;
  response ← requests_request POST url None
                (Some [("file", ("aOriginal.jpg", img_data))]);
  if status_code response =? 200 then
    uri ← pure_call (response_json_uri response);
    mret (response, uri)
  else mret (response, PNone).

(** [GraderClient.process_image] *)
Definition process_image (uri url oauth : PyVal) : Py (Response * PyVal) :=
  endpoint ← endpoints_getitem "process_image";
  url ← default_to url self_url;
  oauth ← default_to oauth self_oauth;
  uri ← default_to uri self_uri;
  _ ← pure_call (validate_url url);
  _ ← pure_call (validate_oauth oauth);
  _ ← pure_call (validate_uri uri);
  url ← pure_call (join_endpoint url (PStr endpoint));
  let values := [("uri", uri)] in
  response ← requests_request POST url (Some values) None;
  if status_code response =? 200 then
    uri ← pure_call (response_json_uri response);
    mret (response, uri)
  else mret (response, PNone).

(** [GraderClient.update_marked_answers] *)
Definition update_marked_answers (path uri url oauth : PyVal)
  : Py (Response * PyVal) :=
  endpoint ← endpoints_getitem "update_marked_answers";
  url ← default_to url self_url;
  oauth ← default_to oauth self_oauth;
  uri ← default_to uri self_uri;
  url ← pure_call (join_endpoint url (PStr endpoint));
  let values := [("uri", uri)] in
  json_data ← open_rb_read path;
  response ← requests_request PUT url (Some values)
                (Some [("file", ("updated_answers.json", json_data))]);
  if status_code response =? 200 then
    uri ← pure_call (response_json_uri response);
    mret (response, uri)
  else mret (response, PNone).

(** [GraderClient.download_marked_answers] *)
Definition download_marked_answers (path uri url oauth : PyVal)
  : Py (Response * PyVal) :=
  endpoint ← endpoints_getitem "download_marked_answers";
  url ← default_to url self_url;
  oauth ← default_to oauth self_oauth;
  uri ← default_to uri self_uri;
  _ ← fs_call (λ fs, validate_path fs path (PStr "json"));
  _ ← pure_call (validate_uri uri);
  _ ← pure_call (validate_url url);
  _ ← pure_call (validate_oauth oauth);
  url ← pure_call (join_endpoint url (PStr endpoint));
  let values := [("uri", uri)] in
  response ← requests_request POST url (Some values) None;
  if status_code response =? 200 then
    match content response with
    | PBytes data =>
        _ ← open_wb_write path data;
        mret (response, path)
    | _ => raise NotAJsonFile
    end
  else if status_code response =? 500 then
    raise (AnswersNotFound uri)
  else mret (response, PNone).

(** [GraderClient.download_confirmation_image] *)
Definition download_confirmation_image (path uri url oauth : PyVal)
  : Py (Response * PyVal) :=
  endpoint ← endpoints_getitem "download_confirmation_image";
  url ← default_to url self_url;
  oauth ← default_to oauth self_oauth;
  uri ← default_to uri self_uri;
  _ ← fs_call (λ fs, validate_path fs path (PStr "jpg"));
  _ ← pure_call (validate_uri uri);
  _ ← pure_call (validate_oauth oauth);
  _ ← pure_call (validate_url url);
  url ← pure_call (join_endpoint url (PStr endpoint));
  let values := [("uri", uri)] in
  response ← requests_request POST url (Some values) None;
  if status_code response =? 200 then
    match content response with
    | PBytes data =>
        _ ← open_wb_write path data;
        mret (response, path)
    | _ => raise NotAnImageFile
    end
  else if status_code response =? 500 then
    raise (ConfirmationNotFound uri)
  else mret (response, PNone).

(** ** Calls *)

(** A call of one of the five operations with its arguments; an omitted
    keyword argument is [PNone], the default of the signature. *)
Inductive Call : Type :=
  | UploadImage (path url oauth : PyVal)
  | ProcessImage (uri url oauth : PyVal)
  | UpdateMarkedAnswers (path uri url oauth : PyVal)
  | DownloadMarkedAnswers (path uri url oauth : PyVal)
  | DownloadConfirmationImage (path uri url oauth : PyVal).

Definition run (c : Call) : Py (Response * PyVal) :=
  match c with
  | UploadImage path url oauth => upload_image path url oauth
  | ProcessImage uri url oauth => process_image uri url oauth
  | UpdateMarkedAnswers path uri url oauth =>
      update_marked_answers path uri url oauth
  | DownloadMarkedAnswers path uri url oauth =>
      download_marked_answers path uri url oauth
  | DownloadConfirmationImage path uri url oauth =>
      download_confirmation_image path uri url oauth
  end.

(** The two operations that write a file. *)
Definition is_download (c : Call) : bool :=
  match c with
  | DownloadMarkedAnswers _ _ _ _ | DownloadConfirmationImage _ _ _ _ => true
  | _ => false
  end.

(** The [oauth] argument of a call, and the call with another one. *)
Definition call_oauth (c : Call) : PyVal :=
  match c with
  | UploadImage _ _ oauth | ProcessImage _ _ oauth
  | UpdateMarkedAnswers _ _ _ oauth | DownloadMarkedAnswers _ _ _ oauth
  | DownloadConfirmationImage _ _ _ oauth => oauth
  end.

Definition with_oauth (oauth : PyVal) (c : Call) : Call :=
  match c with
  | UploadImage path url _ => UploadImage path url oauth
  | ProcessImage uri url _ => ProcessImage uri url oauth
  | UpdateMarkedAnswers path uri url _ =>
      UpdateMarkedAnswers path uri url oauth
  | DownloadMarkedAnswers path uri url _ =>
      DownloadMarkedAnswers path uri url oauth
  | DownloadConfirmationImage path uri url _ =>
      DownloadConfirmationImage path uri url oauth
  end.

(** The [url] a call works with: the argument, or [self.url] when omitted. *)
Definition call_url (c : Call) : PyVal :=
  match c with
  | UploadImage _ url _ | ProcessImage _ url _
  | UpdateMarkedAnswers _ _ url _ | DownloadMarkedAnswers _ _ url _
  | DownloadConfirmationImage _ _ url _ => url
  end.

(** [x if x is not None else field] *)
Definition effective (x field : PyVal) : PyVal :=
  if is_None x then field else x.

(** The world with [self.oauth = oauth] assigned. *)
Definition set_self_oauth (oauth : PyVal) (w : World) : World :=
  {| self := {| self_url := self_url (self w);
                self_oauth := oauth;
                self_uri := self_uri (self w);
                self_download_directory := self_download_directory (self w);
                self_endpoints := self_endpoints (self w) |};
     fs := fs w; transport := transport w; sent := sent w;
     descriptors := descriptors w |}.

(** A world around a client: nothing sent yet, no descriptor open. *)
Definition world_of (c : GraderClient) (fs : FileSystem)
    (transport : list Request → Request → Outcome Response) : World :=
  {| self := c; fs := fs; transport := transport; sent := [];
     descriptors := ∅ |}.

(** ** Observations *)

(** The call [c], run in [w], handed one request to the transport and got
    [response] back. *)
Definition receives (c : Call) (w : World) (response : Response) : Prop :=
  ∃ req, sent (run c w).2 = sent w ++ [req]
         ∧ transport w (sent w) req = Returns response.

(** The [path] and [uri] arguments of a call ([None] where the operation
    takes none). *)
Definition call_path (c : Call) : PyVal :=
  match c with
  | UploadImage path _ _ | UpdateMarkedAnswers path _ _ _
  | DownloadMarkedAnswers path _ _ _
  | DownloadConfirmationImage path _ _ _ => path
  | ProcessImage _ _ _ => PNone
  end.

Definition call_uri (c : Call) : PyVal :=
  match c with
  | ProcessImage uri _ _ | UpdateMarkedAnswers _ uri _ _
  | DownloadMarkedAnswers _ uri _ _
  | DownloadConfirmationImage _ uri _ _ => uri
  | UploadImage _ _ _ => PNone
  end.

(** The operations that call [validate_uri]. *)
Definition validates_identifier (c : Call) : bool :=
  match c with
  | ProcessImage _ _ _ | DownloadMarkedAnswers _ _ _ _
  | DownloadConfirmationImage _ _ _ _ => true
  | _ => false
  end.

(** The extension a download operation requires of its destination. *)
Definition download_extension (c : Call) : string :=
  match c with
  | DownloadMarkedAnswers _ _ _ _ => "json"
  | DownloadConfirmationImage _ _ _ _ => "jpg"
  | _ => ""
  end.

(** Two worlds that differ at most in [self.oauth]. *)
Definition differ_only_in_oauth (w1 w2 : World) : Prop :=
  self_url (self w1) = self_url (self w2)
  ∧ self_uri (self w1) = self_uri (self w2)
  ∧ self_download_directory (self w1) = self_download_directory (self w2)
  ∧ self_endpoints (self w1) = self_endpoints (self w2)
  ∧ fs w1 = fs w2
  ∧ transport w1 = transport w2
  ∧ sent w1 = sent w2
  ∧ descriptors w1 = descriptors w2.

(** Two worlds that differ at most in [self.oauth], which is [s1] in the
    first and [s2] in the second. *)
Definition agree (s1 s2 : PyVal) (w1 w2 : World) : Prop :=
  self_oauth (self w1) = s1 ∧ self_oauth (self w2) = s2
  ∧ differ_only_in_oauth w1 w2.

(** Two computations that, run in agreeing worlds, end with the same outcome
    in agreeing worlds. *)
Definition same {A : Type} (s1 s2 : PyVal) (m1 m2 : Py A) : Prop :=
  ∀ w1 w2, agree s1 s2 w1 w2 →
    (m1 w1).1 = (m2 w2).1 ∧ agree s1 s2 (m1 w1).2 (m2 w2).2.

(** [wp m w Q]: running [m] in [w] ends with an outcome and a world that
    satisfy [Q]. *)
Definition wp {A : Type} (m : Py A) (w : World)
    (Q : Outcome A → World → Prop) : Prop :=
  Q (m w).1 (m w).2.

(** The key under which each operation looks up its endpoint. *)
Definition endpoint_name (c : Call) : string :=
  match c with
  | UploadImage _ _ _ => "upload_image"
  | ProcessImage _ _ _ => "process_image"
  | UpdateMarkedAnswers _ _ _ _ => "update_marked_answers"
  | DownloadMarkedAnswers _ _ _ _ => "download_marked_answers"
  | DownloadConfirmationImage _ _ _ _ => "download_confirmation_image"
  end.

(** The operations that call [validate_url] and [validate_oauth]: all but
    [update_marked_answers]. *)
Definition validates_credentials (c : Call) : bool :=
  match c with
  | UpdateMarkedAnswers _ _ _ _ => false
  | _ => true
  end.

(** ** Example worlds *)

(** The client [GraderClient("https://actgrader.com", "token")]. *)
Definition example_client : GraderClient :=
  {| self_url := PStr "https://actgrader.com";
     self_oauth := PStr "token";
     self_uri := PNone;
     self_download_directory := PNone;
     self_endpoints := endpoints_table |}.

(** A file system with one directory and two files in it. *)
Definition example_fs : FileSystem :=
  {| dirs := {["/work"]};
     files := <["/work/sheet.jpg" := [xff; xd8; xff; xe0]%byte]>
              {["/work/answers.json" := [x7b; x7d]%byte]} |}.

(** A mocked transport that answers every request with [response]. *)
Definition answering (response : Response)
  : list Request → Request → Outcome Response :=
  λ _ _, Returns response.

(** A response with the given status, a bytes body and a JSON object
    holding the identifier ["abc123"]. *)
Definition example_response (status : Z) : Response :=
  {| status_code := status;
     content := PBytes [x41; x00; xff]%byte;
     json := Returns (PDict [("uri", PStr "abc123")]) |}.

Definition example_world (status : Z) : World :=
  world_of example_client example_fs (answering (example_response status)).

(** A file system in which the name [/work/archive.json] is a directory. *)
Definition archive_fs : FileSystem :=
  {| dirs := {["/work"; "/work/archive.json"]};
     files := {["/work/sheet.jpg" := [xff; xd8; xff; xe0]%byte]} |}.

(** A response of status 200 whose body is text, not bytes, and no JSON. *)
Definition text_response : Response :=
  {| status_code := 200;
     content := PStr "<html></html>";
     json := Raises (Builtin JSONDecodeError "json") |}.

(** A transport that fails on every request, as [requests] does when the
    connection cannot be made. *)
Definition unreachable : list Request → Request → Outcome Response :=
  λ _ _, Raises (Builtin RequestException "ConnectionError").

(** * Properties *)

(** ** Worked examples *)

Example splitext_jpg :
  posixpath.splitext "scans/sheet.jpg" = ("scans/sheet", ".jpg").
Proof. reflexivity. Qed.

Example splitext_two_dots :
  posixpath.splitext "a.tar.gz" = ("a.tar", ".gz").
Proof. reflexivity. Qed.

Example splitext_hidden :
  posixpath.splitext "dir.d/.jpg" = ("dir.d/.jpg", "").
Proof. reflexivity. Qed.

Example splitext_dot_in_directory :
  posixpath.splitext "dir.d/sheet" = ("dir.d/sheet", "").
Proof. reflexivity. Qed.

Example dirname_nested :
  posixpath.dirname "/tmp/out//answers.json" = "/tmp/out".
Proof. reflexivity. Qed.

Example dirname_root : posixpath.dirname "/answers.json" = "/".
Proof. reflexivity. Qed.

Example dirname_bare : posixpath.dirname "answers.json" = "".
Proof. reflexivity. Qed.

Example join_plain :
  posixpath.join "https://actgrader.com" "api/upload/image"
  = "https://actgrader.com/api/upload/image".
Proof. reflexivity. Qed.

Example join_trailing_slash :
  posixpath.join "https://actgrader.com/" "api/upload/image"
  = "https://actgrader.com/api/upload/image".
Proof. reflexivity. Qed.

Example init_example :
  __init__ (PStr "https://actgrader.com") (PStr "token")
  = Returns example_client.
Proof. reflexivity. Qed.

Example upload_example :
  (upload_image (PStr "/work/sheet.jpg") PNone PNone (example_world 200)).1
  = Returns (example_response 200, PStr "abc123").
Proof. vm_compute. reflexivity. Qed.

Example upload_example_request :
  sent (upload_image (PStr "/work/sheet.jpg") PNone PNone
          (example_world 200)).2
  = [{| req_method := POST;
        req_url := "https://actgrader.com/api/upload/image";
        req_data := None;
        req_files :=
          Some [("file", ("aOriginal.jpg", [xff; xd8; xff; xe0]%byte))];
        req_headers := None;
        req_auth := None |}].
Proof. vm_compute. reflexivity. Qed.

Example validate_url_https :
  validate_url (PStr "https://actgrader.com") = Returns true.
Proof. reflexivity. Qed.

Example validate_url_no_scheme :
  validate_url (PStr "actgrader.com") = Raises (UrlBadPrefix "actgrader.com").
Proof. reflexivity. Qed.

Example validate_url_short :
  validate_url (PStr "http:") = Raises (UrlBadPrefix "http:").
Proof. reflexivity. Qed.

Example validate_url_none : validate_url PNone = Raises UrlIsNone.
Proof. reflexivity. Qed.

Example validate_path_accepts :
  validate_path example_fs (PStr "/work/out.json") (PStr "json") = Returns true.
Proof. reflexivity. Qed.

Example validate_path_path_object :
  validate_path example_fs (PPath "/work/check.jpg") (PStr "jpg") = Returns true.
Proof. reflexivity. Qed.

Example validate_path_missing_directory :
  validate_path example_fs (PStr "/nowhere/out.json") (PStr "json")
  = Raises (DirectoryMissing "/nowhere").
Proof. reflexivity. Qed.

(** The directory is checked before the extension. *)
Example validate_path_missing_directory_first :
  validate_path example_fs (PStr "/nowhere/out.txt") (PStr "json")
  = Raises (DirectoryMissing "/nowhere").
Proof. reflexivity. Qed.

Example validate_path_wrong_extension :
  validate_path example_fs (PStr "/work/out.JSON") (PStr "json")
  = Raises (WrongExtension (PStr "json")).
Proof. reflexivity. Qed.

Example validate_path_no_extension :
  validate_path example_fs (PStr "/work/out") (PStr "")
  = Raises (WrongExtension (PStr "")).
Proof. reflexivity. Qed.

Example validate_path_bytes :
  validate_path example_fs (PBytes [x2f]%byte) (PStr "json")
  = Raises (PathNotPath (PBytes [x2f]%byte)).
Proof. reflexivity. Qed.

(** The directory of a bare file name is the empty path, which
    [os.path.exists] does not find. *)
Example validate_path_bare_name :
  validate_path example_fs (PStr "out.json") (PStr "json")
  = Raises (DirectoryMissing "").
Proof. reflexivity. Qed.

Example validate_image_path_accepts :
  validate_image_path example_fs (PStr "/work/sheet.jpg") = Returns true.
Proof. reflexivity. Qed.

Example validate_image_path_missing :
  validate_image_path example_fs (PStr "/work/other.png")
  = Raises (ImageMissing (PStr "/work/other.png")).
Proof. reflexivity. Qed.

(** ** The validators *)

Lemma str_eq_true (s : string) (v : PyVal) : str_eq s v = true ↔ v = PStr s.
Proof.
  destruct v; simpl; try (split; [discriminate | congruence]).
  rewrite String.eqb_eq. split; [intros ->; reflexivity | congruence].
Qed.

Lemma str_in_In (x : string) (t : list string) : str_in x t = true ↔ In x t.
Proof.
  unfold str_in. rewrite existsb_exists. split.
  - intros (y & Hy & Heq). apply String.eqb_eq in Heq. congruence.
  - intros Hx. exists x. split; [assumption | apply String.eqb_refl].
Qed.

(** A validator never returns [False]: it returns [True] or raises. *)
Lemma validate_path_returns (fs : FileSystem) (path extension : PyVal) (b : bool) :
  validate_path fs path extension = Returns b → b = true.
Proof.
  unfold validate_path. repeat case_match; congruence.
Qed.

(** What [validate_path] checks: it returns [True] exactly when the path is
    a string or a path object for whose directory part ([os.path.dirname])
    [os.path.exists] holds and whose extension is not empty and equals the
    required one.  Otherwise it
    raises, and the checks are made in this order: a value that is no path
    is a [TypeError] (InvalidArgument); a missing directory is a
    [FileNotFoundError] (NotFound); an empty or different extension is a
    [ValueError] (InvalidFormat). *)
Lemma validate_path_iff (fs : FileSystem) (path extension : PyVal) :
  (validate_path fs path extension = Returns true
   ↔ ∃ p, as_path path = Some p
          ∧ os_path_exists fs (posixpath.dirname p) = true
          ∧ extension_of p ≠ ""
          ∧ extension = PStr (extension_of p))
  ∧ (as_path path = None →
     ∃ e, validate_path fs path extension = Raises e
          ∧ e = PathNotPath path
          ∧ exc_class e = TypeError ∧ error_kind e = InvalidArgument)
  ∧ (∀ p, as_path path = Some p →
          os_path_exists fs (posixpath.dirname p) = false →
     ∃ e, validate_path fs path extension = Raises e
          ∧ e = DirectoryMissing (posixpath.dirname p)
          ∧ exc_class e = FileNotFoundError ∧ error_kind e = NotFound)
  ∧ (∀ p, as_path path = Some p →
          os_path_exists fs (posixpath.dirname p) = true →
          extension_of p = "" ∨ extension ≠ PStr (extension_of p) →
     ∃ e, validate_path fs path extension = Raises e
          ∧ e = WrongExtension extension
          ∧ exc_class e = ValueError ∧ error_kind e = InvalidFormat).
Proof.
  unfold validate_path, extension_of.
  set (ext := λ p, Str.drop 1 (posixpath.splitext p).2).
  repeat split.
  - destruct (as_path path) as [p|]; [|discriminate].
    intros H. exists p.
    destruct (os_path_exists fs (posixpath.dirname p)); [|discriminate].
    simpl in H.
    destruct (String.eqb_spec (Str.drop 1 (posixpath.splitext p).2) "")
      as [|Hne]; [discriminate|].
    destruct (str_eq _ extension) eqn:Heq; [|discriminate].
    apply str_eq_true in Heq. auto.
  - intros (p & -> & -> & Hne & ->). simpl.
    apply String.eqb_neq in Hne. rewrite Hne. simpl.
    rewrite String.eqb_refl. reflexivity.
  - intros ->. eauto.
  - intros p -> ->. simpl. eauto.
  - intros p -> -> Hext. simpl.
    assert (String.eqb (Str.drop 1 (posixpath.splitext p).2) ""
            || negb (str_eq (Str.drop 1 (posixpath.splitext p).2) extension)
            = true) as ->; [|eauto].
    destruct Hext as [-> | Hne]; [reflexivity|].
    apply orb_true_iff. right. apply negb_true_iff.
    destruct (str_eq _ extension) eqn:Heq; [|reflexivity].
    apply str_eq_true in Heq. contradiction.
Qed.

(** C5.  [validate_path] tests the directory part of the path with
    [os.path.exists], which is not whether the containing directory
    exists.  A destination under a regular file is accepted, though no
    such directory exists; a bare file name is rejected with the
    [FileNotFoundError] of a missing directory, though it lies in the
    current directory and [open] would take it. *)
Theorem validate_path_misjudges_directory :
  (posixpath.dirname "/work/sheet.jpg/out.json" = "/work/sheet.jpg"
   ∧ os_path_isdir example_fs "/work/sheet.jpg" = false
   ∧ os_path_isfile example_fs "/work/sheet.jpg" = true
   ∧ validate_path example_fs (PStr "/work/sheet.jpg/out.json") (PStr "json")
     = Returns true
   ∧ open_wb_error example_fs "/work/sheet.jpg/out.json"
     = Some (Builtin NotADirectoryError "/work/sheet.jpg/out.json"))
  ∧ (posixpath.dirname "out.json" = ""
     ∧ extension_of "out.json" = "json"
     ∧ validate_path example_fs (PStr "out.json") (PStr "json")
       = Raises (DirectoryMissing "")
     ∧ open_wb_error example_fs "out.json" = None).
Proof. vm_compute. repeat split; reflexivity. Qed.

(** C6.  A path whose extension is none of jpg, jpeg, png, tif, tiff (as
    written, without the dot) makes [validate_image_path] raise the
    [FileNotFoundError] of the extension check (NotFound), whatever the
    file system holds: the answer is the same on any two file systems. *)
Theorem validate_image_path_bad_extension
    (fs : FileSystem) (path : PyVal) (p : string) :
  as_path path = Some p →
  ¬ In (extension_of p) ["jpg"; "jpeg"; "png"; "tif"; "tiff"] →
  validate_image_path fs path = Raises ImageBadExtension
  ∧ exc_class ImageBadExtension = FileNotFoundError
  ∧ error_kind ImageBadExtension = NotFound
  ∧ ∀ fs', validate_image_path fs' path = validate_image_path fs path.
Proof.
  intros Hp Hext.
  assert (str_in (extension_of p) image_extensions = false) as Hin.
  { destruct (str_in _ _) eqn:E; [|reflexivity].
    apply str_in_In in E. contradiction. }
  unfold validate_image_path, extension_of in *. rewrite Hp, Hin. simpl.
  repeat split; reflexivity.
Qed.

(** The extension check rejects a wrongly named file that exists. *)
Lemma validate_image_path_bad_extension_witness :
  let fs := {| dirs := {["/scans"]};
               files := {["/scans/sheet.JPG" := [x01]%byte]} |} in
  (os_path_exists fs "/scans/sheet.JPG" = true
   ∧ extension_of "/scans/sheet.JPG" = "JPG")
  ∧ validate_image_path fs (PStr "/scans/sheet.JPG") = Raises ImageBadExtension
  ∧ exc_class ImageBadExtension = FileNotFoundError
  ∧ error_kind ImageBadExtension = NotFound
  ∧ ∀ fs', validate_image_path fs' (PStr "/scans/sheet.JPG")
           = validate_image_path fs (PStr "/scans/sheet.JPG").
Proof.
  intros fs. split; [split; vm_compute; reflexivity|].
  apply (validate_image_path_bad_extension fs (PStr "/scans/sheet.JPG")
           "/scans/sheet.JPG"); [reflexivity|].
  vm_compute. intros H. repeat destruct H as [H|H]; try discriminate H.
  exact H.
Defined.

(** ** Reasoning about method bodies *)

Section wp_rules.
Context {A B : Type}.
Implicit Types (w : World) (Q : Outcome A → World → Prop).

Lemma wp_intro (P : Outcome A * World → Prop) (m : Py A) w :
  wp m w (λ o w', P (o, w')) → P (m w).
Proof. unfold wp. destruct (m w); auto. Qed.

Lemma wp_bind (m : Py B) (f : B → Py A) w Q :
  wp m w (λ o w1, match o with
                  | Returns b => wp (f b) w1 Q
                  | Raises e => Q (Raises e) w1
                  end) →
  wp (m ≫= f) w Q.
Proof.
  unfold wp, mbind, Py_bind. destruct (m w) as [[b|e] w1]; simpl; auto.
Qed.

Lemma wp_mret (a : A) w Q : Q (Returns a) w → wp (mret a) w Q.
Proof. auto. Qed.

Lemma wp_raise (e : Exc) w Q : Q (Raises e) w → wp (raise e) w Q.
Proof. auto. Qed.

Lemma wp_pure_call (o : Outcome A) w Q : Q o w → wp (pure_call o) w Q.
Proof. auto. Qed.

Lemma wp_fs_call (f : FileSystem → Outcome A) w Q :
  Q (f (fs w)) w → wp (fs_call f) w Q.
Proof. auto. Qed.

End wp_rules.

Lemma wp_default_to (x : PyVal) (field : GraderClient → PyVal) w
    (Q : Outcome PyVal → World → Prop) :
  Q (Returns (effective x (field (self w)))) w → wp (default_to x field) w Q.
Proof. unfold wp, default_to, effective. destruct (is_None x); auto. Qed.

Lemma wp_endpoints_getitem (name : string) w
    (Q : Outcome string → World → Prop) :
  (∀ e, self_endpoints (self w) !! name = Some e → Q (Returns e) w) →
  (self_endpoints (self w) !! name = None →
   Q (Raises (Builtin KeyError name)) w) →
  wp (endpoints_getitem name) w Q.
Proof.
  unfold wp, endpoints_getitem.
  destruct (self_endpoints (self w) !! name); simpl; auto.
Qed.

(** A read that raises changes nothing; one that returns changes at most
    the open descriptors. *)
Lemma wp_open_rb_read (path : PyVal) w
    (Q : Outcome (list byte) → World → Prop) :
  (∀ e, (open_rb_read path w).1 = Raises e → Q (Raises e) w) →
  (∀ data ds, (open_rb_read path w).1 = Returns data →
        Q (Returns data)
          {| self := self w; fs := fs w; transport := transport w;
             sent := sent w; descriptors := ds |}) →
  wp (open_rb_read path) w Q.
Proof.
  unfold wp, open_rb_read, close. intros Hraise Hret.
  destruct w as [c f t l ds]. cbn [self fs transport sent descriptors] in *.
  repeat case_match; cbn [fst snd] in *; auto.
Qed.

(** A write that raises changes nothing; a write to a named file that can
    be opened replaces its contents; a write to a descriptor changes at
    most the open descriptors. *)
Lemma wp_open_wb_write (path : PyVal) (data : list byte) w
    (Q : Outcome () → World → Prop) :
  (∀ p, open_target path = Returns (Named p) →
        open_wb_error (fs w) p = None →
        Q (Returns ())
          {| self := self w;
             fs := {| dirs := dirs (fs w);
                      files := <[p := data]> (files (fs w)) |};
             transport := transport w; sent := sent w;
             descriptors := descriptors w |}) →
  (∀ e, (open_wb_write path data w).1 = Raises e → Q (Raises e) w) →
  (∀ n ds, open_target path = Returns (Descriptor n) →
        Q (Returns ())
          {| self := self w; fs := fs w; transport := transport w;
             sent := sent w; descriptors := ds |}) →
  wp (open_wb_write path data) w Q.
Proof.
  unfold wp. intros Hnamed Hraise Hfd.
  specialize (Hraise) as Hraise'. revert Hraise'.
  unfold open_wb_write, close.
  destruct (open_target path) as [[p|n]|e] eqn:Ht.
  - destruct (open_wb_error (fs w) p) eqn:He; cbn [fst snd]; intros Hr.
    + apply Hr. reflexivity.
    + apply Hnamed; [reflexivity | assumption].
  - destruct (descriptors w !! n); cbn [fst snd]; intros Hr.
    + apply (Hfd n). reflexivity.
    + apply Hr. reflexivity.
  - cbn [fst snd]. intros Hr. apply Hr. reflexivity.
Qed.

Lemma wp_requests_request (method : Method) (url : string)
    (data : option (list (string * PyVal)))
    (files_ : option (list (string * (string * list byte)))) w
    (Q : Outcome Response → World → Prop) :
  (∀ req, req = {| req_method := method; req_url := url; req_data := data;
                   req_files := files_; req_headers := None;
                   req_auth := None |} →
          Q (transport w (sent w) req)
            {| self := self w; fs := fs w; transport := transport w;
               sent := sent w ++ [req]; descriptors := descriptors w |}) →
  wp (requests_request method url data files_) w Q.
Proof. unfold wp, requests_request. simpl. auto. Qed.

(** The rule of the primitive a body starts with. *)
Ltac wp_prim :=
  first
    [ apply wp_mret | apply wp_raise | apply wp_pure_call | apply wp_fs_call
    | apply wp_default_to
    | apply wp_endpoints_getitem; [intros ? ?|intros ?]
    | apply wp_open_rb_read; [intros ? ?|intros ? ? ?]
    | apply wp_open_wb_write; [intros ? ? ?|intros ? ?|intros ? ? ?]
    | apply wp_requests_request; intros ? ? ].

(** One step through a method body: a primitive call, a branch of the
    body, or the two outcomes of the call just made. *)
Ltac wp_step :=
  lazymatch goal with
  | |- wp (let _ := _ in _) _ _ => cbv zeta
  | |- wp (_ ≫= _) _ _ =>
      apply wp_bind; wp_prim; cbv beta;
      cbn [self fs transport sent descriptors]
  | |- wp (if ?b then _ else _) _ _ => destruct b eqn:?
  | |- wp (match ?x with _ => _ end) _ _ => destruct x eqn:?
  | |- wp _ _ _ =>
      wp_prim; cbv beta; cbn [self fs transport sent descriptors]
  | |- match ?o with Returns _ => _ | Raises _ => _ end => destruct o eqn:?
  end.

(** Turns a goal about [run c w], for a given operation, into a goal about
    its body. *)
Ltac wp_start :=
  lazymatch goal with
  | |- context [run ?c ?w] =>
      pattern (run c w); apply wp_intro; cbn [fst snd];
      cbv beta iota delta
        [run upload_image process_image update_marked_answers
         download_marked_answers download_confirmation_image]
  end.

Lemma not_sent {A : Type} (l : list A) (x : A) : l = l ++ [x] → False.
Proof.
  intros H. apply (f_equal length) in H. rewrite length_app in H.
  simpl in H. lia.
Qed.

Lemma sent_inj {A : Type} (l : list A) (x y : A) :
  l ++ [x] = l ++ [y] → x = y.
Proof. intros H. apply app_inv_head in H. congruence. Qed.

(** ** The client object *)

Lemma operations_do_not_mutate_client_self (c : Call) (w : World) :
  self (run c w).2 = self w.
Proof.
  destruct c; wp_start; repeat wp_step; reflexivity.
Qed.

(** C9.  No operation assigns to an attribute of the client: after any call,
    returned or raised, [self.url], [self.oauth], [self.uri],
    [self.download_directory] and the endpoint table are what they were.  In
    particular an identifier the server returns is not stored in
    [self.uri]. *)
Theorem operations_do_not_mutate_client (c : Call) (w : World) :
  self (run c w).2 = self w
  ∧ self_url (self (run c w).2) = self_url (self w)
  ∧ self_oauth (self (run c w).2) = self_oauth (self w)
  ∧ self_uri (self (run c w).2) = self_uri (self w)
  ∧ self_download_directory (self (run c w).2)
    = self_download_directory (self w)
  ∧ self_endpoints (self (run c w).2) = self_endpoints (self w).
Proof.
  rewrite operations_do_not_mutate_client_self. auto 10.
Qed.

(** ** Status codes *)

(** The leaves of a proof about a call that [receives] a response: no
    request was sent, or the request sent is the one answered. *)
Ltac received :=
  cbn [sent fs self transport];
  let req := fresh "req" in
  let Hsent := fresh "Hsent" in
  let Hanswer := fresh "Hanswer" in
  intros (req & Hsent & Hanswer);
  first
    [ exfalso; exact (not_sent _ _ Hsent)
    | apply sent_inj in Hsent; subst req;
      rewrite Hanswer in *;
      match goal with
      | H : Returns _ = Raises _ |- _ => discriminate H
      | H : Returns _ = Returns _ |- _ => injection H as <-
      end ].

(** A path [validate_path] accepts is a string or a path object, which
    [open] takes as the name of a file. *)
Lemma validate_path_as_path (fs : FileSystem) (path extension : PyVal)
    (b : bool) :
  validate_path fs path extension = Returns b →
  ∃ p, as_path path = Some p ∧ open_target path = Returns (Named p).
Proof.
  unfold validate_path. destruct path; simpl; try discriminate; eauto.
Qed.

(** With arguments that pass its four checks and an endpoint in the table,
    a download operation sends its request: a POST of the identifier to
    the URL joined with the endpoint. *)
Lemma download_sends (c : Call) (w : World) (u e id : string) :
  is_download c = true →
  validate_path (fs w) (call_path c) (PStr (download_extension c))
  = Returns true →
  effective (call_uri c) (self_uri (self w)) = PStr id →
  effective (call_url c) (self_url (self w)) = PStr u →
  validate_url (PStr u) = Returns true →
  validate_oauth (effective (call_oauth c) (self_oauth (self w)))
  = Returns true →
  self_endpoints (self w) !! endpoint_name c = Some e →
  sent (run c w).2
  = sent w ++ [{| req_method := POST;
                  req_url := posixpath.join u e;
                  req_data := Some [("uri", PStr id)];
                  req_files := None;
                  req_headers := None;
                  req_auth := None |}].
Proof.
  intros Hd Hpath Huri Hurl Hvalid Hoauth He.
  destruct c; try discriminate Hd;
    cbn [call_path call_uri call_url call_oauth download_extension
         endpoint_name] in *;
    wp_start; repeat wp_step;
    repeat match goal with
           | H : validate_uri _ = _ |- _ =>
               rewrite Huri in H; cbn [validate_uri] in H
           | H : validate_url _ = _ |- _ => rewrite Hurl in H
           | H : join_endpoint _ _ = _ |- _ =>
               rewrite Hurl in H;
               cbv beta iota delta
                 [join_endpoint os_path_join as_path mbind Outcome_bind] in H
           end;
    try congruence;
    simplify_eq; rewrite ?Huri; reflexivity.
Qed.

(** C3.  When a download operation receives a response with status 500 it
    raises the [FileNotFoundError] that names the identifier it asked for
    (RemoteNotFound), and the file system is left as it was: nothing is
    written to the destination.  It does receive that response whenever
    its arguments pass validation and the transport answers its request
    with it; the call then ends with that exception and with the request
    as its only effect. *)
Theorem download_status_500 (c : Call) (w : World) (r : Response) :
  is_download c = true →
  status_code r = 500 →
  (receives c w r →
   ∃ u e, effective (call_uri c) (self_uri (self w)) = PStr u
          ∧ (run c w).1 = Raises e
          ∧ e = match c with
                | DownloadConfirmationImage _ _ _ _ =>
                    ConfirmationNotFound (PStr u)
                | _ => AnswersNotFound (PStr u)
                end
          ∧ exc_class e = FileNotFoundError
          ∧ error_kind e = RemoteNotFound
          ∧ In (Val (PStr u)) (exc_message e)
          ∧ fs (run c w).2 = fs w)
  ∧ (∀ u e id,
       validate_path (fs w) (call_path c) (PStr (download_extension c))
       = Returns true →
       effective (call_uri c) (self_uri (self w)) = PStr id →
       effective (call_url c) (self_url (self w)) = PStr u →
       validate_url (PStr u) = Returns true →
       validate_oauth (effective (call_oauth c) (self_oauth (self w)))
       = Returns true →
       self_endpoints (self w) !! endpoint_name c = Some e →
       transport w (sent w)
         {| req_method := POST;
            req_url := posixpath.join u e;
            req_data := Some [("uri", PStr id)];
            req_files := None;
            req_headers := None;
            req_auth := None |} = Returns r →
       receives c w r).
Proof.
  intros Hd Hst. split.
  - unfold receives.
    destruct c; try discriminate Hd; wp_start; repeat wp_step; received;
      repeat match goal with
             | H : (_ =? _) = true |- _ => apply Z.eqb_eq in H
             end;
      try lia;
      match goal with
      | H : validate_uri ?x = Returns _ |- _ =>
          destruct x as [| | |u| | |] eqn:Hu; try discriminate H
      end;
      exists u; eexists; repeat split; try reflexivity;
      cbn [exc_message In]; auto.
  - intros u e id Hpath Huri Hurl Hvalid Hoauth He Hanswer.
    eexists. split; [|exact Hanswer].
    apply download_sends; assumption.
Qed.

Lemma download_status_500_witness :
  let r := example_response 500 in
  let w := example_world 500 in
  let c1 := DownloadMarkedAnswers (PStr "/work/out.json") (PStr "sheet-1")
              PNone PNone in
  let c2 := DownloadConfirmationImage (PStr "/work/check.jpg")
              (PStr "sheet-2") PNone PNone in
  (receives c1 w r
   ∧ ∃ u e, effective (call_uri c1) (self_uri (self w)) = PStr u
            ∧ (run c1 w).1 = Raises e
            ∧ e = AnswersNotFound (PStr u)
            ∧ exc_class e = FileNotFoundError
            ∧ error_kind e = RemoteNotFound
            ∧ In (Val (PStr u)) (exc_message e)
            ∧ fs (run c1 w).2 = fs w)
  ∧ (receives c2 w r
     ∧ ∃ u e, effective (call_uri c2) (self_uri (self w)) = PStr u
              ∧ (run c2 w).1 = Raises e
              ∧ e = ConfirmationNotFound (PStr u)
              ∧ exc_class e = FileNotFoundError
              ∧ error_kind e = RemoteNotFound
              ∧ In (Val (PStr u)) (exc_message e)
              ∧ fs (run c2 w).2 = fs w).
Proof.
  intros r w c1 c2.
  destruct (download_status_500 c1 w r eq_refl eq_refl) as [Hraise1 Hrecv1].
  destruct (download_status_500 c2 w r eq_refl eq_refl) as [Hraise2 Hrecv2].
  assert (receives c1 w r) as H1.
  { apply (Hrecv1 "https://actgrader.com" "api/download/marked_answers"
             "sheet-1"); reflexivity. }
  assert (receives c2 w r) as H2.
  { apply (Hrecv2 "https://actgrader.com" "api/download/confirmation_image"
             "sheet-2"); reflexivity. }
  split; (split; [assumption|]); [apply Hraise1 | apply Hraise2]; assumption.
Defined.

(** What the two calls of the witness raise. *)
Example download_status_500_raises :
  (run (DownloadMarkedAnswers (PStr "/work/out.json") (PStr "sheet-1")
          PNone PNone) (example_world 500)).1
  = Raises (AnswersNotFound (PStr "sheet-1"))
  ∧ (run (DownloadConfirmationImage (PStr "/work/check.jpg")
            (PStr "sheet-2") PNone PNone) (example_world 500)).1
    = Raises (ConfirmationNotFound (PStr "sheet-2")).
Proof. split; vm_compute; reflexivity. Qed.

(** C4.  A response whose status is not 200, and on the two download
    operations not 500 either, is no error: the operation raises nothing
    and returns the response with [None]. *)
Theorem other_status_returns_none (c : Call) (w : World) (r : Response) :
  receives c w r →
  status_code r ≠ 200 →
  (is_download c = true → status_code r ≠ 500) →
  (run c w).1 = Returns (r, PNone).
Proof.
  unfold receives.
  destruct c; wp_start; repeat wp_step; received; intros Hst Hd;
    repeat match goal with
           | H : (_ =? _) = true |- _ => apply Z.eqb_eq in H
           end;
    try contradiction; try reflexivity.
  all: exfalso; apply Hd; [reflexivity | assumption].
Qed.

Lemma other_status_returns_none_witness :
  (run (UploadImage (PStr "/work/sheet.jpg") PNone PNone)
     (example_world 404)).1
  = Returns (example_response 404, PNone).
Proof.
  apply (other_status_returns_none
           (UploadImage (PStr "/work/sheet.jpg") PNone PNone)
           (example_world 404) (example_response 404)).
  - eexists. split; [vm_compute; reflexivity | reflexivity].
  - discriminate.
  - discriminate.
Defined.

(** The same on a download, and status 500 on an upload. *)
Example download_status_404 :
  run (DownloadConfirmationImage (PStr "/work/check.jpg") (PStr "sheet-1")
         PNone PNone) (example_world 404)
  = (Returns (example_response 404, PNone),
     {| self := example_client; fs := example_fs;
        transport := answering (example_response 404);
        sent := [{| req_method := POST;
                    req_url := "https://actgrader.com/api/download/confirmation_image";
                    req_data := Some [("uri", PStr "sheet-1")];
                    req_files := None; req_headers := None;
                    req_auth := None |}];
        descriptors := ∅ |}).
Proof. reflexivity. Qed.

Example upload_status_500 :
  (run (UploadImage (PStr "/work/sheet.jpg") PNone PNone)
     (example_world 500)).1
  = Returns (example_response 500, PNone).
Proof. vm_compute. reflexivity. Qed.

(** The destination a download has validated can be opened for writing
    when it is not itself a directory and its directory part is one. *)
Lemma open_wb_error_none (fs : FileSystem) (path extension : PyVal)
    (b : bool) (p : string) :
  validate_path fs path extension = Returns b →
  as_path path = Some p →
  os_path_isdir fs p = false →
  os_path_isdir fs (posixpath.dirname p) = true →
  open_wb_error fs p = None.
Proof.
  unfold validate_path, open_wb_error. intros Hv Hp Hfile Hdir.
  rewrite Hp in Hv. rewrite Hfile, Hdir, orb_true_r.
  destruct (String.eqb_spec p "") as [->|]; [|reflexivity].
  destruct (os_path_exists fs (posixpath.dirname "")) eqn:He;
    [discriminate He | discriminate Hv].
Qed.

(** C7.  When a download operation receives a response with status 200
    whose body is bytes, and its destination can be opened for writing (it
    is not a directory, and its directory part is a directory), the file
    at the destination path holds exactly those bytes afterwards, nothing
    else in the file system changes, and the operation returns the
    response with the destination path.  It does receive that response
    whenever its arguments pass validation and the transport answers its
    request with it. *)
Theorem download_status_200_writes_body
    (c : Call) (w : World) (r : Response) (data : list byte) (p : string) :
  is_download c = true →
  status_code r = 200 →
  content r = PBytes data →
  as_path (call_path c) = Some p →
  os_path_isdir (fs w) p = false →
  os_path_isdir (fs w) (posixpath.dirname p) = true →
  (receives c w r →
   (run c w).1 = Returns (r, call_path c)
   ∧ files (fs (run c w).2) !! p = Some data
   ∧ fs (run c w).2 = {| dirs := dirs (fs w);
                         files := <[p := data]> (files (fs w)) |})
  ∧ (∀ u e id,
       validate_path (fs w) (call_path c) (PStr (download_extension c))
       = Returns true →
       effective (call_uri c) (self_uri (self w)) = PStr id →
       effective (call_url c) (self_url (self w)) = PStr u →
       validate_url (PStr u) = Returns true →
       validate_oauth (effective (call_oauth c) (self_oauth (self w)))
       = Returns true →
       self_endpoints (self w) !! endpoint_name c = Some e →
       transport w (sent w)
         {| req_method := POST;
            req_url := posixpath.join u e;
            req_data := Some [("uri", PStr id)];
            req_files := None;
            req_headers := None;
            req_auth := None |} = Returns r →
       receives c w r).
Proof.
  intros Hd Hst Hbody Hp Hfile Hdir. split.
  - unfold receives.
    destruct c; try discriminate Hd; cbn [call_path] in Hp;
      wp_start; repeat wp_step; received;
      repeat match goal with
             | H : (_ =? _) = false |- _ => apply Z.eqb_neq in H
             end;
      try contradiction; try congruence.
    all: match goal with
         | H : validate_path _ _ _ = Returns _ |- _ =>
             pose proof (open_wb_error_none _ _ _ _ _ H Hp Hfile Hdir)
               as Hopen;
             apply validate_path_as_path in H as (q & Hq & Htarget)
         end;
      assert (q = p) as -> by congruence.
    all: try match goal with
             | H : (open_wb_write ?x ?d ?w0).1 = Raises _ |- _ =>
                 unfold open_wb_write in H; rewrite Htarget in H;
                 cbn [fs] in H; rewrite Hopen in H; discriminate H
             end;
      try congruence.
    all: match goal with
         | H : open_target _ = Returns (Named ?p') |- _ =>
             assert (p' = p) as -> by congruence
         end.
    all: cbn [call_path fs files]; repeat split; try congruence.
    all: rewrite lookup_insert_eq; congruence.
  - intros u e id Hpath Huri Hurl Hvalid Hoauth He Hanswer.
    eexists. split; [|exact Hanswer].
    apply download_sends; assumption.
Qed.

Lemma download_status_200_writes_body_witness :
  let r := example_response 200 in
  let w := example_world 200 in
  let c1 := DownloadMarkedAnswers (PStr "/work/out.json") (PStr "sheet-1")
              PNone PNone in
  let c2 := DownloadConfirmationImage (PStr "/work/check.jpg")
              (PStr "sheet-2") PNone PNone in
  (receives c1 w r
   ∧ (run c1 w).1 = Returns (r, call_path c1)
   ∧ files (fs (run c1 w).2) !! "/work/out.json"
     = Some [x41; x00; xff]%byte
   ∧ fs (run c1 w).2
     = {| dirs := dirs (fs w);
          files := <["/work/out.json" := [x41; x00; xff]%byte]>
                     (files (fs w)) |})
  ∧ (receives c2 w r
     ∧ (run c2 w).1 = Returns (r, call_path c2)
     ∧ files (fs (run c2 w).2) !! "/work/check.jpg"
       = Some [x41; x00; xff]%byte
     ∧ fs (run c2 w).2
       = {| dirs := dirs (fs w);
            files := <["/work/check.jpg" := [x41; x00; xff]%byte]>
                       (files (fs w)) |}).
Proof.
  intros r w c1 c2.
  destruct (download_status_200_writes_body c1 w r [x41; x00; xff]%byte
              "/work/out.json" eq_refl eq_refl eq_refl eq_refl eq_refl
              eq_refl) as [Hwrite1 Hrecv1].
  destruct (download_status_200_writes_body c2 w r [x41; x00; xff]%byte
              "/work/check.jpg" eq_refl eq_refl eq_refl eq_refl eq_refl
              eq_refl) as [Hwrite2 Hrecv2].
  assert (receives c1 w r) as H1.
  { apply (Hrecv1 "https://actgrader.com" "api/download/marked_answers"
             "sheet-1"); reflexivity. }
  assert (receives c2 w r) as H2.
  { apply (Hrecv2 "https://actgrader.com" "api/download/confirmation_image"
             "sheet-2"); reflexivity. }
  split; (split; [assumption|]); [apply Hwrite1 | apply Hwrite2]; assumption.
Defined.

(** A destination that [validate_path] accepts and that is itself a
    directory: the response is received, with status 200 and a bytes body,
    and [open] raises; nothing is written and nothing is returned. *)
Lemma download_to_directory_raises :
  let c := DownloadMarkedAnswers (PStr "/work/archive.json") (PStr "sheet-1")
             PNone PNone in
  let r := example_response 200 in
  let w := world_of example_client archive_fs (answering r) in
  is_download c = true
  ∧ validate_path (fs w) (call_path c) (PStr "json") = Returns true
  ∧ receives c w r
  ∧ status_code r = 200
  ∧ content r = PBytes [x41; x00; xff]%byte
  ∧ (run c w).1 = Raises (Builtin IsADirectoryError "/work/archive.json")
  ∧ files (fs (run c w).2) !! "/work/archive.json" = None
  ∧ fs (run c w).2 = fs w.
Proof.
  intros c r w. repeat split; try reflexivity.
  eexists. split; [vm_compute; reflexivity | reflexivity].
Qed.

(** A destination under a regular file passes [validate_path]; the request
    is sent and answered, and [open] raises. *)
Example download_under_file_raises :
  let c := DownloadMarkedAnswers (PStr "/work/sheet.jpg/out.json")
             (PStr "sheet-1") PNone PNone in
  let w := example_world 200 in
  (run c w).1
  = Raises (Builtin NotADirectoryError "/work/sheet.jpg/out.json")
  ∧ length (sent (run c w).2) = 1%nat
  ∧ fs (run c w).2 = fs w.
Proof. vm_compute. repeat split; reflexivity. Qed.

(** ** The credential *)

(** Every request an operation sends is built without [headers] and without
    [auth]. *)
Lemma requests_carry_no_credentials (c : Call) (w : World) (req : Request) :
  In req (sent (run c w).2) →
  In req (sent w) ∨ (req_headers req = None ∧ req_auth req = None).
Proof.
  destruct c; wp_start; repeat wp_step; cbn [sent]; auto;
    intros Hin; apply in_app_or in Hin as [Hin|[<-|[]]]; subst; auto.
Qed.

Section credential.

(** The value of [self.oauth] in each of two runs. *)
Variables s1 s2 : PyVal.

Lemma same_bind {A B : Type} (m1 m2 : Py A) (f1 f2 : A → Py B) :
  same s1 s2 m1 m2 → (∀ a, same s1 s2 (f1 a) (f2 a)) →
  same s1 s2 (m1 ≫= f1) (m2 ≫= f2).
Proof.
  intros Hm Hf w1 w2 Hw. destruct (Hm w1 w2 Hw) as [Ho Hw'].
  unfold mbind, Py_bind.
  destruct (m1 w1) as [[a1|e1] w1'], (m2 w2) as [[a2|e2] w2'];
    simpl in *; try discriminate; simplify_eq; auto.
  apply Hf; assumption.
Qed.

Lemma same_mret {A : Type} (a : A) : same s1 s2 (mret a) (mret a).
Proof. intros w1 w2 Hw. auto. Qed.

Lemma same_raise {A : Type} (e : Exc) : same s1 s2 (raise (A:=A) e) (raise e).
Proof. intros w1 w2 Hw. auto. Qed.

Lemma same_pure_call {A : Type} (o : Outcome A) :
  same s1 s2 (pure_call o) (pure_call o).
Proof. intros w1 w2 Hw. auto. Qed.

Lemma same_fs_call {A : Type} (f : FileSystem → Outcome A) :
  same s1 s2 (fs_call f) (fs_call f).
Proof.
  intros w1 w2 Hw. split; [|assumption].
  unfold fs_call. simpl. destruct Hw as (_ & _ & _ & _ & _ & _ & -> & _).
  reflexivity.
Qed.

Lemma same_default_url (x : PyVal) :
  same s1 s2 (default_to x self_url) (default_to x self_url).
Proof.
  intros w1 w2 Hw. unfold default_to.
  destruct (is_None x); [|auto]. split; [|assumption].
  unfold getattr_self. simpl. destruct Hw as (_ & _ & -> & _). reflexivity.
Qed.

Lemma same_default_uri (x : PyVal) :
  same s1 s2 (default_to x self_uri) (default_to x self_uri).
Proof.
  intros w1 w2 Hw. unfold default_to.
  destruct (is_None x); [|auto]. split; [|assumption].
  unfold getattr_self. simpl. destruct Hw as (_ & _ & _ & -> & _).
  reflexivity.
Qed.

Lemma same_endpoints_getitem (name : string) :
  same s1 s2 (endpoints_getitem name) (endpoints_getitem name).
Proof.
  intros w1 w2 Hw. unfold endpoints_getitem.
  pose proof Hw as (_ & _ & _ & _ & _ & -> & _).
  destruct (self_endpoints (self w2) !! name); simpl; auto.
Qed.

Lemma same_open_rb_read (path : PyVal) :
  same s1 s2 (open_rb_read path) (open_rb_read path).
Proof.
  intros w1 w2 Hw. unfold open_rb_read, close.
  destruct Hw as (H1 & H2 & Hu & Hi & Hd & He & Hf & Ht & Hs & Hds).
  rewrite Hf, Hds.
  repeat case_match; simpl; (split; [reflexivity|]);
    repeat split; simpl; congruence.
Qed.

Lemma same_open_wb_write (path : PyVal) (data : list byte) :
  same s1 s2 (open_wb_write path data) (open_wb_write path data).
Proof.
  intros w1 w2 Hw. unfold open_wb_write, close.
  destruct Hw as (H1 & H2 & Hu & Hi & Hd & He & Hf & Ht & Hs & Hds).
  rewrite Hf, Hds.
  repeat case_match; simpl; (split; [reflexivity|]);
    repeat split; simpl; congruence.
Qed.

Lemma same_requests_request (method : Method) (url : string)
    (data : option (list (string * PyVal)))
    (files_ : option (list (string * (string * list byte)))) :
  same s1 s2 (requests_request method url data files_)
    (requests_request method url data files_).
Proof.
  intros w1 w2 Hw. unfold requests_request.
  destruct Hw as (H1 & H2 & Hu & Hi & Hd & He & Hf & Ht & Hs & Hds).
  simpl. rewrite Ht, Hs. split; [reflexivity|].
  repeat split; simpl; congruence.
Qed.

(** The credential step: whichever way each run gets its token, the rest
    of the body runs with a string in both. *)
Lemma same_default_oauth {A : Type} (o1 o2 : PyVal) (t1 t2 : string)
    (f1 f2 : PyVal → Py A) :
  effective o1 s1 = PStr t1 →
  effective o2 s2 = PStr t2 →
  same s1 s2 (f1 (PStr t1)) (f2 (PStr t2)) →
  same s1 s2 (default_to o1 self_oauth ≫= f1)
    (default_to o2 self_oauth ≫= f2).
Proof.
  intros E1 E2 Hf w1 w2 Hw.
  assert ((default_to o1 self_oauth ≫= f1) w1 = f1 (PStr t1) w1) as ->.
  { unfold mbind, Py_bind, default_to, effective, getattr_self in *.
    destruct Hw as (H1 & _). destruct (is_None o1); simpl; congruence. }
  assert ((default_to o2 self_oauth ≫= f2) w2 = f2 (PStr t2) w2) as ->.
  { unfold mbind, Py_bind, default_to, effective, getattr_self in *.
    destruct Hw as (_ & H2 & _). destruct (is_None o2); simpl; congruence. }
  apply Hf; assumption.
Qed.

End credential.

Ltac same_prim :=
  first
    [ apply same_mret | apply same_raise | apply same_pure_call
    | apply same_fs_call | apply same_default_url | apply same_default_uri
    | apply same_endpoints_getitem | apply same_open_rb_read
    | apply same_open_wb_write | apply same_requests_request ].

Ltac same_step :=
  lazymatch goal with
  | |- same _ _ (let _ := _ in _) _ => cbv zeta
  | |- same _ _ (default_to _ self_oauth ≫= _) _ =>
      eapply same_default_oauth; [eassumption | eassumption | cbv beta]
  | |- same _ _ (_ ≫= _) _ => apply same_bind; [same_prim | intros ?]
  | |- same _ _ (if ?b then _ else _) _ => destruct b
  | |- same _ _ (match ?x with _ => _ end) _ => destruct x
  | |- same _ _ _ _ => same_prim
  end.

(** Run with a string credential, by argument or by attribute, each
    operation does the same in two worlds that differ only in it. *)
Lemma run_same (c : Call) (o1 o2 s1 s2 : PyVal) (t1 t2 : string) :
  effective o1 s1 = PStr t1 →
  effective o2 s2 = PStr t2 →
  same s1 s2 (run (with_oauth o1 c)) (run (with_oauth o2 c)).
Proof.
  intros E1 E2.
  destruct c; cbn [run with_oauth];
    unfold upload_image, process_image, update_marked_answers,
      download_marked_answers, download_confirmation_image;
    repeat same_step.
Qed.

(** C2.  Two runs of an operation that differ only in the credential, a
    string passed as [oauth] or stored in [self.oauth], end alike: the same
    result, the same requests handed to the transport, the same file
    system.  The token is checked and never sent, and no request carries
    [headers] or [auth]. *)
Theorem credential_is_never_transmitted
    (c : Call) (o1 o2 : PyVal) (w1 w2 : World) (t1 t2 : string) :
  differ_only_in_oauth w1 w2 →
  effective o1 (self_oauth (self w1)) = PStr t1 →
  effective o2 (self_oauth (self w2)) = PStr t2 →
  (run (with_oauth o1 c) w1).1 = (run (with_oauth o2 c) w2).1
  ∧ sent (run (with_oauth o1 c) w1).2 = sent (run (with_oauth o2 c) w2).2
  ∧ fs (run (with_oauth o1 c) w1).2 = fs (run (with_oauth o2 c) w2).2
  ∧ ∀ req, In req (sent (run (with_oauth o1 c) w1).2) →
           In req (sent w1)
           ∨ (req_headers req = None ∧ req_auth req = None).
Proof.
  intros Hw E1 E2.
  destruct (run_same c o1 o2 _ _ t1 t2 E1 E2 w1 w2) as [Ho Hw'].
  { split; [reflexivity|]. split; [reflexivity|]. exact Hw. }
  destruct Hw' as (_ & _ & _ & _ & _ & _ & Hfs & _ & Hsent & _).
  repeat split; try assumption.
  apply requests_carry_no_credentials.
Qed.

Lemma credential_is_never_transmitted_witness :
  let c := ProcessImage (PStr "sheet-1") PNone PNone in
  let w1 := example_world 200 in
  let w2 := set_self_oauth (PStr "another token") (example_world 200) in
  (run (with_oauth (PStr "secret") c) w1).1 = (run (with_oauth PNone c) w2).1
  ∧ sent (run (with_oauth (PStr "secret") c) w1).2
    = sent (run (with_oauth PNone c) w2).2
  ∧ fs (run (with_oauth (PStr "secret") c) w1).2
    = fs (run (with_oauth PNone c) w2).2
  ∧ ∀ req, In req (sent (run (with_oauth (PStr "secret") c) w1).2) →
           In req (sent w1)
           ∨ (req_headers req = None ∧ req_auth req = None).
Proof.
  intros c w1 w2.
  apply (credential_is_never_transmitted c (PStr "secret") PNone w1 w2
           "secret" "another token").
  - repeat split; reflexivity.
  - reflexivity.
  - reflexivity.
Defined.

(** The request of that run: the token is nowhere in it. *)
Example process_request_example :
  sent (run (ProcessImage (PStr "sheet-1") PNone (PStr "secret"))
          (example_world 200)).2
  = [{| req_method := POST;
        req_url := "https://actgrader.com/api/process/image";
        req_data := Some [("uri", PStr "sheet-1")];
        req_files := None;
        req_headers := None;
        req_auth := None |}].
Proof. vm_compute. reflexivity. Qed.

(** ** Identifiers *)

Lemma validate_url_str (url : PyVal) (b : bool) :
  validate_url url = Returns b → b = true ∧ ∃ u, url = PStr u.
Proof.
  unfold validate_url. repeat case_match; intros; simplify_eq; eauto.
Qed.

Lemma validate_oauth_str (oauth : PyVal) (b : bool) :
  validate_oauth oauth = Returns b → b = true ∧ ∃ t, oauth = PStr t.
Proof.
  unfold validate_oauth. repeat case_match; intros; simplify_eq; eauto.
Qed.

Lemma validate_uri_str (uri : PyVal) (b : bool) :
  validate_uri uri = Returns b → b = true ∧ ∃ u, uri = PStr u.
Proof.
  unfold validate_uri. repeat case_match; intros; simplify_eq; eauto.
Qed.

Lemma join_endpoint_str (u e : string) :
  join_endpoint (PStr u) (PStr e) = Returns (posixpath.join u e).
Proof. reflexivity. Qed.

(** What [upload_image] has checked when it returns. *)
Lemma upload_image_returned (path url oauth : PyVal) (w : World)
    (r : Response) (v : PyVal) :
  (run (UploadImage path url oauth) w).1 = Returns (r, v) →
  validate_url (effective url (self_url (self w))) = Returns true
  ∧ validate_oauth (effective oauth (self_oauth (self w))) = Returns true
  ∧ (v ≠ PNone → status_code r = 200).
Proof.
  wp_start; repeat wp_step; try discriminate;
    repeat match goal with
           | H : validate_url _ = Returns ?b |- _ =>
               destruct (validate_url_str _ _ H) as [-> _]; clear H
           | H : validate_oauth _ = Returns ?b |- _ =>
               destruct (validate_oauth_str _ _ H) as [-> _]; clear H
           | H : (_ =? _) = true |- _ => apply Z.eqb_eq in H
           end;
    intros [= <- <-]; repeat split; auto; congruence.
Qed.

(** C8.  When [upload_image] returns an identifier, a string, with its
    response (of status 200), calling [process_image] with it right after,
    on the same client with the same [url] and [oauth] arguments, hands the
    transport exactly one more request: a POST to the process endpoint
    whose form field [uri] is that identifier. *)
Theorem upload_then_process_round_trip
    (path url oauth : PyVal) (w w1 : World) (r : Response) (id : string) :
  self_endpoints (self w) = endpoints_table →
  upload_image path url oauth w = (Returns (r, PStr id), w1) →
  status_code r = 200
  ∧ ∃ req u,
      sent (process_image (PStr id) url oauth w1).2 = sent w1 ++ [req]
      ∧ req_method req = POST
      ∧ effective url (self_url (self w)) = PStr u
      ∧ req_url req = posixpath.join u "api/process/image"
      ∧ req_data req = Some [("uri", PStr id)]
      ∧ req_files req = None.
Proof.
  intros Htable Hup.
  assert (self w1 = self w) as Hself.
  { pose proof (operations_do_not_mutate_client_self (UploadImage path url oauth) w)
      as H. cbn [run] in H. rewrite Hup in H. exact H. }
  destruct (upload_image_returned path url oauth w r (PStr id))
    as (Hurl & Hoauth & Hst).
  { cbn [run]. rewrite Hup. reflexivity. }
  split; [apply Hst; discriminate|].
  destruct (validate_url_str _ _ Hurl) as [_ [u Hu]].
  change (process_image (PStr id) url oauth)
    with (run (ProcessImage (PStr id) url oauth)).
  wp_start; repeat wp_step;
    repeat match goal with
           | H : context [self w1] |- _ => rewrite Hself in H
           end;
    try congruence;
    try match goal with
        | H : self_endpoints (self w) !! _ = _ |- _ =>
            rewrite Htable in H; vm_compute in H; simplify_eq
        end;
    try match goal with
        | H : join_endpoint _ _ = _ |- _ =>
            rewrite Hu, join_endpoint_str in H; simplify_eq
        end;
    try discriminate.
  all: cbn [sent]; eexists; exists u; repeat split; subst;
    first [reflexivity | assumption].
Qed.

Lemma upload_then_process_round_trip_witness :
  let w := example_world 200 in
  let w1 := (upload_image (PStr "/work/sheet.jpg") PNone PNone w).2 in
  status_code (example_response 200) = 200
  ∧ ∃ req u,
      sent (process_image (PStr "abc123") PNone PNone w1).2 = sent w1 ++ [req]
      ∧ req_method req = POST
      ∧ effective PNone (self_url (self w)) = PStr u
      ∧ req_url req = posixpath.join u "api/process/image"
      ∧ req_data req = Some [("uri", PStr "abc123")]
      ∧ req_files req = None.
Proof.
  intros w w1.
  apply (upload_then_process_round_trip (PStr "/work/sheet.jpg") PNone PNone
           w w1 (example_response 200) "abc123").
  - reflexivity.
  - vm_compute. reflexivity.
Defined.

Lemma init_returned (url oauth : PyVal) (client : GraderClient) :
  __init__ url oauth = Returns client →
  client = {| self_url := url; self_oauth := oauth; self_uri := PNone;
              self_download_directory := PNone;
              self_endpoints := endpoints_table |}
  ∧ validate_url url = Returns true
  ∧ validate_oauth oauth = Returns true.
Proof.
  unfold __init__, mbind, Outcome_bind.
  destruct (validate_url url) as [a|] eqn:Hu; [|discriminate].
  destruct (validate_oauth oauth) as [b|] eqn:Ho; [|discriminate].
  apply validate_url_str in Hu as [-> _].
  apply validate_oauth_str in Ho as [-> _].
  intros [= <-]. auto.
Qed.

(** C10.  A client as [__init__] leaves it has [self.uri = None].  Called on
    it without an identifier, [process_image], [download_marked_answers]
    and [download_confirmation_image] raise before anything is sent or
    written; when their other arguments pass validation, what they raise is
    the [ValueError] of [validate_uri] for an absent identifier
    (InvalidArgument). *)
Theorem fresh_client_has_no_identifier
    (url0 oauth0 : PyVal) (client : GraderClient) (c : Call) (w : World) :
  __init__ url0 oauth0 = Returns client →
  self w = client →
  validates_identifier c = true →
  call_uri c = PNone →
  self_uri client = PNone
  ∧ (∃ e, run c w = (Raises e, w))
  ∧ (validate_url (effective (call_url c) (self_url client)) = Returns true →
     validate_oauth (effective (call_oauth c) (self_oauth client))
     = Returns true →
     (is_download c = true →
      validate_path (fs w) (call_path c) (PStr (download_extension c))
      = Returns true) →
     run c w = (Raises UriIsNone, w)
     ∧ validate_uri (effective (call_uri c) (self_uri client))
       = Raises UriIsNone
     ∧ exc_class UriIsNone = ValueError
     ∧ error_kind UriIsNone = InvalidArgument).
Proof.
  intros Hinit Hself Hv Huri.
  apply init_returned in Hinit as (-> & Hu0 & Ho0).
  split; [reflexivity|].
  destruct w as [client fs0 transport0 sent0 descriptors0].
  cbn in Hself. subst client.
  destruct c; try discriminate Hv; cbn in Huri; subst uri;
    cbn [call_url call_oauth call_path is_download download_extension
         call_uri self_url self_oauth self_uri];
    wp_start; repeat wp_step;
    cbn [self fs self_url self_oauth self_uri effective is_None validate_uri]
      in *;
    try discriminate;
    (split; [eauto|]); intros Hurl Hoauth Hpath;
    try specialize (Hpath eq_refl);
    repeat split; try reflexivity; congruence.
Qed.

Lemma fresh_client_has_no_identifier_witness :
  let c := DownloadMarkedAnswers (PStr "/work/out.json") PNone PNone PNone in
  let w := example_world 200 in
  self_uri example_client = PNone
  ∧ (∃ e, run c w = (Raises e, w))
  ∧ run c w = (Raises UriIsNone, w)
  ∧ validate_uri (effective (call_uri c) (self_uri example_client))
    = Raises UriIsNone
  ∧ exc_class UriIsNone = ValueError
  ∧ error_kind UriIsNone = InvalidArgument.
Proof.
  intros c w.
  destruct (fresh_client_has_no_identifier
              (PStr "https://actgrader.com") (PStr "token")
              example_client c w eq_refl eq_refl eq_refl eq_refl)
    as (Hnone & Hfails & Hwhich).
  split; [exact Hnone|]. split; [exact Hfails|].
  apply Hwhich; reflexivity.
Defined.

(** ** [update_marked_answers] and the validators *)

(** [update_marked_answers] never looks at the credential: any two values
    of [oauth], valid or not, give the same run. *)
Lemma update_marked_answers_ignores_oauth
    (path uri url oauth oauth' : PyVal) (w : World) :
  update_marked_answers path uri url oauth w
  = update_marked_answers path uri url oauth' w.
Proof.
  unfold update_marked_answers, default_to.
  destruct (is_None oauth), (is_None oauth'); reflexivity.
Qed.

(** C1.  [update_marked_answers] calls neither [validate_url] nor
    [validate_oauth], as its four sibling operations do.  Here the URL is
    the client's own, which is valid, and the credential is the integer 0,
    which [validate_oauth] rejects: the PUT request is sent all the same
    and the call returns. *)
Theorem update_marked_answers_sends_unvalidated :
  let c := UpdateMarkedAnswers (PStr "/work/answers.json") (PStr "sheet-1")
             PNone (PInt 0) in
  let w := example_world 200 in
  validate_url (effective (call_url c) (self_url (self w))) = Returns true
  ∧ validate_oauth (effective (call_oauth c) (self_oauth (self w)))
    = Raises OAuthNotStr
  ∧ (run c w).1 = Returns (example_response 200, PStr "abc123")
  ∧ sent (run c w).2
    = [{| req_method := PUT;
          req_url := "https://actgrader.com/api/update/marked_answers";
          req_data := Some [("uri", PStr "sheet-1")];
          req_files :=
            Some [("file", ("updated_answers.json", [x7b; x7d]%byte))];
          req_headers := None;
          req_auth := None |}].
Proof. vm_compute. repeat split; reflexivity. Qed.

(** The sibling [process_image] rejects the same credential and sends
    nothing. *)
Example process_image_validates :
  run (ProcessImage (PStr "sheet-1") PNone (PInt 0)) (example_world 200)
  = (Raises OAuthNotStr, example_world 200).
Proof. reflexivity. Qed.

(** ** Further properties *)

Lemma slice_prefix (pre u : string) :
  String.eqb (Str.slice 0 (Z.of_nat (String.length pre)) u) pre
  = String.prefix pre u.
Proof.
  unfold Str.slice. rewrite Z.sub_0_r, Nat2Z.id.
  change (Z.to_nat 0) with 0%nat.
  destruct (String.prefix pre u) eqn:Hp.
  - apply String.prefix_correct in Hp. rewrite Hp. apply String.eqb_refl.
  - apply String.eqb_neq. intros Heq.
    apply String.prefix_correct in Heq. congruence.
Qed.

(** X1.  On a string, [validate_url] returns [True] when the string starts
    with [http://] or with [https://], and otherwise raises the
    [ValueError] of a malformed URL (InvalidFormat). *)
Theorem validate_url_prefix (u : string) :
  validate_url (PStr u)
  = if String.prefix "http://" u || String.prefix "https://" u
    then Returns true
    else Raises (UrlBadPrefix u).
Proof.
  unfold validate_url.
  rewrite <- (slice_prefix "http://" u), <- (slice_prefix "https://" u).
  reflexivity.
Qed.

(** X2.  When [upload_image], [process_image] or [update_marked_answers]
    receives a response with status 200, it returns the response with the
    value under ["uri"] of the response's JSON body; an exception of
    [json()] or of the lookup propagates. *)
Theorem status_200_returns_identifier (c : Call) (w : World) (r : Response) :
  is_download c = false →
  receives c w r →
  status_code r = 200 →
  (run c w).1 = (uri ← response_json_uri r; Returns (r, uri)).
Proof.
  intros Hd. unfold receives.
  destruct c; try discriminate Hd; wp_start; repeat wp_step; received;
    intros Hst;
    repeat match goal with
           | H : (_ =? _) = false |- _ => apply Z.eqb_neq in H
           end;
    try contradiction;
    match goal with
    | H : response_json_uri _ = _ |- _ => rewrite H
    end; reflexivity.
Qed.

Lemma status_200_returns_identifier_witness :
  (run (UploadImage (PStr "/work/sheet.jpg") PNone PNone)
     (example_world 200)).1
  = Returns (example_response 200, PStr "abc123").
Proof.
  apply (status_200_returns_identifier
           (UploadImage (PStr "/work/sheet.jpg") PNone PNone)
           (example_world 200) (example_response 200)).
  - reflexivity.
  - eexists. split; [vm_compute; reflexivity | reflexivity].
  - reflexivity.
Defined.

(** ** Requests and side effects of every operation *)

(** X3.  A call hands the transport at most one request, after the ones
    already sent: nothing is retried and no earlier request is altered. *)
Theorem sends_at_most_one_request (c : Call) (w : World) :
  sent (run c w).2 = sent w
  ∨ ∃ req, sent (run c w).2 = sent w ++ [req].
Proof.
  destruct c; wp_start; repeat wp_step; cbn [sent]; eauto.
Qed.

(** X4.  A call that sends nothing has raised, and has left the world as it
    found it: every return comes after a request, and a failure before the
    request has no side effect. *)
Theorem nothing_sent_nothing_done (c : Call) (w : World) :
  sent (run c w).2 = sent w →
  ∃ e, run c w = (Raises e, w).
Proof.
  destruct c; wp_start; repeat wp_step; cbn [sent]; eauto;
    intros Hs; symmetry in Hs; destruct (not_sent _ _ Hs).
Qed.

Lemma nothing_sent_nothing_done_witness :
  ∃ e, run (ProcessImage PNone PNone PNone) (example_world 200)
       = (Raises e, example_world 200).
Proof.
  apply (nothing_sent_nothing_done (ProcessImage PNone PNone PNone)
           (example_world 200)).
  reflexivity.
Defined.

(** X5.  In [upload_image], [process_image] and the two download
    operations, a URL or a credential that its validator rejects makes the
    call raise with nothing sent and nothing written. *)
Theorem invalid_url_or_credential_rejected (c : Call) (w : World) :
  validates_credentials c = true →
  (∃ e, validate_url (effective (call_url c) (self_url (self w))) = Raises e)
  ∨ (∃ e, validate_oauth (effective (call_oauth c) (self_oauth (self w)))
          = Raises e) →
  ∃ e, run c w = (Raises e, w).
Proof.
  intros Hv Hbad.
  destruct c; try discriminate Hv;
    cbn [call_url call_oauth] in Hbad;
    wp_start; repeat wp_step; eauto;
    exfalso; destruct Hbad as [[e' He']|[e' He']]; congruence.
Qed.

Lemma invalid_url_or_credential_rejected_witness :
  ∃ e, run (DownloadMarkedAnswers (PStr "/work/out.json") (PStr "sheet-1")
              (PStr "ftp://actgrader.com") PNone) (example_world 200)
       = (Raises e, example_world 200).
Proof.
  apply (invalid_url_or_credential_rejected
           (DownloadMarkedAnswers (PStr "/work/out.json") (PStr "sheet-1")
              (PStr "ftp://actgrader.com") PNone) (example_world 200)).
  - reflexivity.
  - left. eexists. reflexivity.
Defined.

(** X6.  No operation creates or removes a directory, only the download
    operations change a file, and a download changes no file but its
    destination. *)
Theorem operations_preserve_other_files (c : Call) (w : World) :
  dirs (fs (run c w).2) = dirs (fs w)
  ∧ (is_download c = false → fs (run c w).2 = fs w)
  ∧ (∀ q, as_path (call_path c) ≠ Some q →
          files (fs (run c w).2) !! q = files (fs w) !! q).
Proof.
  destruct c; wp_start; repeat wp_step; cbn [fs dirs files call_path];
    repeat split; try reflexivity; try discriminate;
    intros q Hq;
    match goal with
    | H : validate_path _ _ _ = Returns _ |- _ =>
        apply validate_path_as_path in H as (p' & Hp' & Hopen)
    end;
    match goal with
    | H : open_target ?x = Returns (Named ?p) |- _ =>
        assert (p = p') as -> by congruence
    end;
    apply lookup_insert_ne; congruence.
Qed.

(** X7.  When a download operation receives a response of status 200 whose
    body is not bytes, it raises its [Warning] (ContentMismatch) and writes
    nothing. *)
Theorem download_status_200_not_bytes (c : Call) (w : World) (r : Response) :
  is_download c = true →
  receives c w r →
  status_code r = 200 →
  (∀ data, content r ≠ PBytes data) →
  ∃ e, (run c w).1 = Raises e
       ∧ e = match c with
             | DownloadConfirmationImage _ _ _ _ => NotAnImageFile
             | _ => NotAJsonFile
             end
       ∧ exc_class e = Warning
       ∧ error_kind e = ContentMismatch
       ∧ fs (run c w).2 = fs w.
Proof.
  intros Hd. unfold receives.
  destruct c; try discriminate Hd; wp_start; repeat wp_step; received;
    intros Hst Hbody;
    repeat match goal with
           | H : (_ =? _) = false |- _ => apply Z.eqb_neq in H
           end;
    try contradiction;
    try (exfalso; eapply Hbody; eassumption);
    eexists; repeat split; reflexivity.
Qed.

Lemma download_status_200_not_bytes_witness :
  let c := DownloadMarkedAnswers (PStr "/work/out.json") (PStr "sheet-1")
             PNone PNone in
  let w := world_of example_client example_fs (answering text_response) in
  ∃ e, (run c w).1 = Raises e
       ∧ e = NotAJsonFile
       ∧ exc_class e = Warning
       ∧ error_kind e = ContentMismatch
       ∧ fs (run c w).2 = fs w.
Proof.
  intros c w.
  apply (download_status_200_not_bytes c w text_response).
  - reflexivity.
  - eexists. split; [vm_compute; reflexivity | reflexivity].
  - reflexivity.
  - discriminate.
Defined.

(** X8.  An exception of the transport is not caught: the operation raises
    that same exception, and nothing is written. *)
Theorem transport_exception_propagates
    (c : Call) (w : World) (req : Request) (e : Exc) :
  sent (run c w).2 = sent w ++ [req] →
  transport w (sent w) req = Raises e →
  (run c w).1 = Raises e ∧ fs (run c w).2 = fs w.
Proof.
  destruct c; wp_start; repeat wp_step; cbn [sent fs];
    intros Hsent Hfail;
    try (exfalso; exact (not_sent _ _ Hsent));
    apply sent_inj in Hsent; subst; split; congruence.
Qed.

Lemma transport_exception_propagates_witness :
  let c := UploadImage (PStr "/work/sheet.jpg") PNone PNone in
  let w := world_of example_client example_fs unreachable in
  (run c w).1 = Raises (Builtin RequestException "ConnectionError")
  ∧ fs (run c w).2 = fs w.
Proof.
  intros c w.
  eapply (transport_exception_propagates c w).
  - vm_compute. reflexivity.
  - reflexivity.
Defined.

(** ** The request each operation builds *)

(** A read that returns has read a named file, or an open descriptor. *)
Lemma open_rb_read_returned (path : PyVal) (w : World) (data : list byte) :
  (open_rb_read path w).1 = Returns data →
  (∃ p, open_target path = Returns (Named p)
        ∧ files (fs w) !! p = Some data)
  ∨ (∃ n, open_target path = Returns (Descriptor n)
          ∧ descriptors w !! n = Some data).
Proof.
  unfold open_rb_read.
  destruct (open_target path) as [[p|n]|]; [| |discriminate].
  - destruct (files (fs w) !! p) as [d|] eqn:Hf; [|discriminate].
    intros [= <-]. eauto.
  - destruct (descriptors w !! n) as [d|] eqn:Hf; [|discriminate].
    intros [= <-]. eauto.
Qed.

Lemma validate_image_path_as_path (fs : FileSystem) (path : PyVal) (b : bool) :
  validate_image_path fs path = Returns b →
  ∃ p, as_path path = Some p ∧ open_target path = Returns (Named p).
Proof.
  unfold validate_image_path. destruct path; simpl; try discriminate; eauto.
Qed.

Lemma join_endpoint_returned (url : PyVal) (e a : string) :
  join_endpoint url (PStr e) = Returns a →
  ∃ u, url = PStr u ∧ a = posixpath.join u e.
Proof.
  destruct url; try discriminate. intros [= <-]. eauto.
Qed.

(** The leaves of a proof about the request a call sent: nothing was sent,
    or the request is the one the body built. *)
Ltac sent_request :=
  cbn [sent fs self transport];
  let Hsent := fresh "Hsent" in
  intros Hsent;
  first
    [ exfalso; exact (not_sent _ _ Hsent)
    | apply sent_inj in Hsent; subst;
      repeat match goal with
             | H : join_endpoint _ (PStr _) = Returns _ |- _ =>
                 apply join_endpoint_returned in H as (? & ? & ->)
             | H : (open_rb_read _ _).1 = Returns _ |- _ =>
                 apply open_rb_read_returned in H
                   as [(? & ? & ?)|(? & ? & ?)]
             | H : validate_image_path _ _ = Returns _ |- _ =>
                 apply validate_image_path_as_path in H as (? & ? & ?)
             | H : validate_uri _ = Returns _ |- _ =>
                 apply validate_uri_str in H as (_ & ? & ?)
             end ].

(** X9.  The request [upload_image] sends is a POST to the base URL joined
    with the upload endpoint, with no form data and one file part: field
    [file], file name [aOriginal.jpg] whatever the local name, and as body
    the bytes the image file holds. *)
Theorem upload_sends_file_contents
    (path url oauth : PyVal) (w : World) (req : Request) :
  sent (run (UploadImage path url oauth) w).2 = sent w ++ [req] →
  ∃ u e p data,
    effective url (self_url (self w)) = PStr u
    ∧ self_endpoints (self w) !! "upload_image" = Some e
    ∧ as_path path = Some p
    ∧ files (fs w) !! p = Some data
    ∧ req = {| req_method := POST;
               req_url := posixpath.join u e;
               req_data := None;
               req_files := Some [("file", ("aOriginal.jpg", data))];
               req_headers := None;
               req_auth := None |}.
Proof.
  wp_start; repeat wp_step; sent_request; try congruence;
    match goal with
    | H1 : open_target ?x = Returns (Named ?p),
      H2 : files _ !! ?q = Some _ |- _ =>
        assert (q = p) as -> by congruence
    end;
    repeat eexists; eauto.
Qed.

Lemma upload_sends_file_contents_witness :
  ∃ u e p data,
    effective PNone (self_url (self (example_world 200))) = PStr u
    ∧ self_endpoints (self (example_world 200)) !! "upload_image" = Some e
    ∧ as_path (PStr "/work/sheet.jpg") = Some p
    ∧ files (fs (example_world 200)) !! p = Some data
    ∧ {| req_method := POST;
         req_url := "https://actgrader.com/api/upload/image";
         req_data := None;
         req_files :=
           Some [("file", ("aOriginal.jpg", [xff; xd8; xff; xe0]%byte))];
         req_headers := None;
         req_auth := None |}
      = {| req_method := POST;
           req_url := posixpath.join u e;
           req_data := None;
           req_files := Some [("file", ("aOriginal.jpg", data))];
           req_headers := None;
           req_auth := None |}.
Proof.
  apply (upload_sends_file_contents (PStr "/work/sheet.jpg") PNone PNone
           (example_world 200)).
  vm_compute. reflexivity.
Defined.

(** X10.  The request [update_marked_answers] sends is a PUT to the base URL
    joined with the update endpoint, whose form field [uri] is the
    identifier as given or as stored, unchecked (it may be [None]), and
    whose one file part has field [file], file name [updated_answers.json]
    and as body the bytes [open(path, 'rb')] has read: those of the file
    the path names or, for an integer path, those of that open file
    descriptor. *)
Theorem update_sends_file_and_identifier
    (path uri url oauth : PyVal) (w : World) (req : Request) :
  sent (run (UpdateMarkedAnswers path uri url oauth) w).2 = sent w ++ [req] →
  ∃ u e data,
    effective url (self_url (self w)) = PStr u
    ∧ self_endpoints (self w) !! "update_marked_answers" = Some e
    ∧ ((∃ p, open_target path = Returns (Named p)
             ∧ files (fs w) !! p = Some data)
       ∨ (∃ n, open_target path = Returns (Descriptor n)
               ∧ descriptors w !! n = Some data))
    ∧ req = {| req_method := PUT;
               req_url := posixpath.join u e;
               req_data := Some [("uri", effective uri (self_uri (self w)))];
               req_files := Some [("file", ("updated_answers.json", data))];
               req_headers := None;
               req_auth := None |}.
Proof.
  wp_start; repeat wp_step; sent_request; repeat eexists; eauto.
Qed.

Lemma update_sends_file_and_identifier_witness :
  ∃ u e data,
    effective PNone (self_url (self (example_world 200))) = PStr u
    ∧ self_endpoints (self (example_world 200)) !! "update_marked_answers"
      = Some e
    ∧ ((∃ p, open_target (PStr "/work/answers.json") = Returns (Named p)
             ∧ files (fs (example_world 200)) !! p = Some data)
       ∨ (∃ n, open_target (PStr "/work/answers.json")
               = Returns (Descriptor n)
               ∧ descriptors (example_world 200) !! n = Some data))
    ∧ {| req_method := PUT;
         req_url := "https://actgrader.com/api/update/marked_answers";
         req_data := Some [("uri", PNone)];
         req_files :=
           Some [("file", ("updated_answers.json", [x7b; x7d]%byte))];
         req_headers := None;
         req_auth := None |}
      = {| req_method := PUT;
           req_url := posixpath.join u e;
           req_data :=
             Some [("uri", effective PNone
                             (self_uri (self (example_world 200))))];
           req_files := Some [("file", ("updated_answers.json", data))];
           req_headers := None;
           req_auth := None |}.
Proof.
  apply (update_sends_file_and_identifier (PStr "/work/answers.json")
           PNone PNone PNone (example_world 200)).
  vm_compute. reflexivity.
Defined.

(** With the integer 0 as path, [update_marked_answers] sends what
    descriptor 0 holds, and the descriptor is closed afterwards. *)
Example update_from_descriptor :
  let w := {| self := example_client; fs := example_fs;
              transport := answering (example_response 200); sent := [];
              descriptors := {[0 := [x7b; x7d]%byte]} |} in
  let w' := (run (UpdateMarkedAnswers (PInt 0) (PStr "sheet-1") PNone PNone)
               w).2 in
  sent w'
  = [{| req_method := PUT;
        req_url := "https://actgrader.com/api/update/marked_answers";
        req_data := Some [("uri", PStr "sheet-1")];
        req_files :=
          Some [("file", ("updated_answers.json", [x7b; x7d]%byte))];
        req_headers := None;
        req_auth := None |}]
  ∧ descriptors w' !! 0 = None.
Proof. vm_compute. split; reflexivity. Qed.

(** X11.  The request [process_image] and the two download operations send
    is a POST to the base URL joined with the operation's endpoint, with no
    file part and one form field, [uri], holding the identifier, which is a
    string. *)
Theorem identifier_operations_post_uri
    (c : Call) (w : World) (req : Request) :
  validates_identifier c = true →
  sent (run c w).2 = sent w ++ [req] →
  ∃ u e id,
    effective (call_url c) (self_url (self w)) = PStr u
    ∧ self_endpoints (self w) !! endpoint_name c = Some e
    ∧ effective (call_uri c) (self_uri (self w)) = PStr id
    ∧ req = {| req_method := POST;
               req_url := posixpath.join u e;
               req_data := Some [("uri", PStr id)];
               req_files := None;
               req_headers := None;
               req_auth := None |}.
Proof.
  intros Hv.
  destruct c; try discriminate Hv;
    cbn [call_url call_uri endpoint_name];
    wp_start; repeat wp_step; sent_request;
    repeat match goal with
           | H : effective _ _ = PStr _ |- _ => rewrite H in *
           end;
    repeat eexists; eauto.
Qed.

Lemma identifier_operations_post_uri_witness :
  let c := DownloadConfirmationImage (PStr "/work/check.jpg")
             (PStr "sheet-1") PNone PNone in
  let w := example_world 200 in
  ∃ u e id,
    effective (call_url c) (self_url (self w)) = PStr u
    ∧ self_endpoints (self w) !! endpoint_name c = Some e
    ∧ effective (call_uri c) (self_uri (self w)) = PStr id
    ∧ {| req_method := POST;
         req_url := "https://actgrader.com/api/download/confirmation_image";
         req_data := Some [("uri", PStr "sheet-1")];
         req_files := None;
         req_headers := None;
         req_auth := None |}
      = {| req_method := POST;
           req_url := posixpath.join u e;
           req_data := Some [("uri", PStr id)];
           req_files := None;
           req_headers := None;
           req_auth := None |}.
Proof.
  intros c w.
  apply (identifier_operations_post_uri c w).
  - reflexivity.
  - vm_compute. reflexivity.
Defined.

(** ** Validators, constructor and endpoint join *)

(** X12.  [validate_image_path] returns [True] exactly when the value is a
    string or a path object, its extension is one of jpg, jpeg, png, tif,
    tiff, and the file system has an entry at the path.  With an accepted
    extension and no such entry it raises the [FileNotFoundError] that
    names the path (NotFound); a value that is no path is a [TypeError]
    (InvalidArgument). *)
Theorem validate_image_path_iff (fs : FileSystem) (path : PyVal) :
  (validate_image_path fs path = Returns true
   ↔ ∃ p, as_path path = Some p
          ∧ In (extension_of p) ["jpg"; "jpeg"; "png"; "tif"; "tiff"]
          ∧ os_path_exists fs p = true)
  ∧ (∀ p, as_path path = Some p →
          In (extension_of p) ["jpg"; "jpeg"; "png"; "tif"; "tiff"] →
          os_path_exists fs p = false →
          validate_image_path fs path = Raises (ImageMissing path)
          ∧ exc_class (ImageMissing path) = FileNotFoundError
          ∧ error_kind (ImageMissing path) = NotFound
          ∧ In (Val path) (exc_message (ImageMissing path)))
  ∧ (as_path path = None →
     validate_image_path fs path = Raises ImagePathNotPath
     ∧ exc_class ImagePathNotPath = TypeError
     ∧ error_kind ImagePathNotPath = InvalidArgument).
Proof.
  unfold validate_image_path, extension_of.
  repeat split.
  - destruct (as_path path) as [p|]; [|discriminate].
    intros H. exists p.
    destruct (str_in _ image_extensions) eqn:Hin; [|discriminate].
    destruct (os_path_exists fs p); [|discriminate].
    apply str_in_In in Hin. auto.
  - intros (p & -> & Hin & ->). apply str_in_In in Hin.
    unfold image_extensions. rewrite Hin. reflexivity.
  - apply str_in_In in H0. unfold image_extensions.
    rewrite H, H0, H1. reflexivity.
  - simpl. auto.
  - rewrite H. reflexivity.
Qed.

Lemma prefix_app (pre u x : string) :
  String.prefix pre u = true → String.prefix pre (u +:+ x) = true.
Proof.
  revert u. induction pre as [|a pre IH]; intros u H.
  - destruct (u +:+ x); reflexivity.
  - destruct u as [|b u]; simpl in *; [discriminate|].
    destruct (ascii_dec a b); [apply IH, H|discriminate].
Qed.

Lemma validate_url_app (u x : string) :
  validate_url (PStr u) = Returns true →
  validate_url (PStr (u +:+ x)) = Returns true.
Proof.
  unfold validate_url.
  change 7 with (Z.of_nat (String.length "http://")).
  change 8 with (Z.of_nat (String.length "https://")).
  rewrite !slice_prefix.
  destruct (String.prefix "http://" u) eqn:H1.
  - rewrite (prefix_app _ _ x H1). reflexivity.
  - destruct (String.prefix "https://" u) eqn:H2; [|discriminate].
    rewrite (prefix_app _ _ x H2).
    destruct (String.prefix "http://" (u +:+ x)); reflexivity.
Qed.

(** X13.  [join_endpoint] returns exactly when both operands are strings;
    any other operand makes it raise a [TypeError]. *)
Theorem join_endpoint_type_errors (url endpoint : PyVal) :
  ((∃ a, join_endpoint url endpoint = Returns a)
   ↔ ∃ u e, url = PStr u ∧ endpoint = PStr e)
  ∧ (∀ x, join_endpoint url endpoint = Raises x → exc_class x = TypeError).
Proof.
  split; [split|].
  - intros [a H]. destruct url; try discriminate.
    destruct endpoint; try discriminate. eauto.
  - intros (u & e & -> & ->). eexists. reflexivity.
  - intros x. destruct url, endpoint; simpl; intros [= <-]; reflexivity.
Qed.

(** X14.  Joined with an endpoint that does not start with a slash, a URL
    that [validate_url] accepts gives a URL that [validate_url] accepts:
    the base URL, one slash unless the base ends with one, and the
    endpoint.  An endpoint that starts with a slash replaces the base
    URL. *)
Theorem join_endpoint_keeps_base (u e : string) :
  validate_url (PStr u) = Returns true →
  (Str.startswith "/" e = false →
   join_endpoint (PStr u) (PStr e)
   = Returns (u +:+ (if Str.endswith "/" u then "" else "/") +:+ e)
   ∧ validate_url (PStr (posixpath.join u e)) = Returns true)
  ∧ (Str.startswith "/" e = true →
     join_endpoint (PStr u) (PStr e) = Returns e).
Proof.
  intros Hu. split; intros He.
  - assert (u ≠ "") as Hne by (intros ->; discriminate Hu).
    apply String.eqb_neq in Hne.
    assert (posixpath.join u e
            = u +:+ (if Str.endswith "/" u then "" else "/") +:+ e) as Hj.
    { unfold posixpath.join, posixpath.sep. rewrite He, Hne. simpl.
      destruct (Str.endswith "/" u); reflexivity. }
    rewrite join_endpoint_str, Hj. split; [reflexivity|].
    apply validate_url_app, Hu.
  - rewrite join_endpoint_str. unfold posixpath.join, posixpath.sep.
    rewrite He. reflexivity.
Qed.

Lemma join_endpoint_keeps_base_witness :
  (Str.startswith "/" "api/upload/image" = false →
   join_endpoint (PStr "http://localhost:8000/") (PStr "api/upload/image")
   = Returns ("http://localhost:8000/"
              +:+ (if Str.endswith "/" "http://localhost:8000/"
                   then "" else "/")
              +:+ "api/upload/image")
   ∧ validate_url
       (PStr (posixpath.join "http://localhost:8000/" "api/upload/image"))
     = Returns true)
  ∧ (Str.startswith "/" "api/upload/image" = true →
     join_endpoint (PStr "http://localhost:8000/") (PStr "api/upload/image")
     = Returns "api/upload/image").
Proof.
  apply (join_endpoint_keeps_base "http://localhost:8000/" "api/upload/image").
  reflexivity.
Defined.

(** X15.  [__init__] returns a client exactly when the URL is a string that
    starts with [http://] or [https://] and the credential is a string, the
    empty one included; the client then holds both as given, no identifier,
    no download directory and the five endpoints.  The URL is checked
    first: when it is rejected, its exception is the one raised. *)
Theorem init_iff (url oauth : PyVal) (client : GraderClient) :
  (__init__ url oauth = Returns client
   ↔ ∃ u t, url = PStr u ∧ oauth = PStr t
            ∧ (String.prefix "http://" u || String.prefix "https://" u) = true
            ∧ client = {| self_url := PStr u; self_oauth := PStr t;
                          self_uri := PNone;
                          self_download_directory := PNone;
                          self_endpoints := endpoints_table |})
  ∧ (∀ e, validate_url url = Raises e → __init__ url oauth = Raises e).
Proof.
  split; [split|].
  - intros H. apply init_returned in H as (-> & Hu & Ho).
    apply validate_url_str in Hu as Hu'. destruct Hu' as (_ & u & ->).
    apply validate_oauth_str in Ho as (_ & t & ->).
    exists u, t. repeat split.
    revert Hu. unfold validate_url.
    change 7 with (Z.of_nat (String.length "http://")).
    change 8 with (Z.of_nat (String.length "https://")).
    rewrite !slice_prefix. case_match; [reflexivity|discriminate].
  - intros (u & t & -> & -> & Hp & ->).
    unfold __init__, validate_url.
    change 7 with (Z.of_nat (String.length "http://")).
    change 8 with (Z.of_nat (String.length "https://")).
    rewrite !slice_prefix, Hp. reflexivity.
  - intros e He. unfold __init__. rewrite He. reflexivity.
Qed.

(** X16.  On a client as [__init__] returns it, [process_image] called with
    a string identifier and no other argument passes every check and sends
    one request: a POST of that identifier to the client's URL joined with
    [api/process/image]. *)
Theorem fresh_client_processes
    (url0 oauth0 : PyVal) (client : GraderClient) (w : World) (id : string) :
  __init__ url0 oauth0 = Returns client →
  self w = client →
  ∃ u, url0 = PStr u
       ∧ sent (run (ProcessImage (PStr id) PNone PNone) w).2
         = sent w ++ [{| req_method := POST;
                         req_url := posixpath.join u "api/process/image";
                         req_data := Some [("uri", PStr id)];
                         req_files := None;
                         req_headers := None;
                         req_auth := None |}].
Proof.
  intros Hinit Hself.
  apply init_returned in Hinit as (-> & Hu0 & Ho0).
  destruct (validate_url_str _ _ Hu0) as (_ & u & ->).
  exists u. split; [reflexivity|].
  destruct w as [client fs0 transport0 sent0 descriptors0].
  cbn in Hself. subst client.
  wp_start; repeat wp_step;
    cbn [self self_url self_oauth self_uri self_endpoints effective is_None
         validate_uri sent] in *;
    try congruence;
    try match goal with
        | H : endpoints_table !! _ = _ |- _ => vm_compute in H; simplify_eq
        end;
    try match goal with
        | H : join_endpoint _ _ = _ |- _ =>
            rewrite join_endpoint_str in H; simplify_eq
        end;
    try discriminate; reflexivity.
Qed.

Lemma fresh_client_processes_witness :
  ∃ u, PStr "https://actgrader.com" = PStr u
       ∧ sent (run (ProcessImage (PStr "sheet-1") PNone PNone)
                 (example_world 404)).2
         = sent (example_world 404)
           ++ [{| req_method := POST;
                  req_url := posixpath.join u "api/process/image";
                  req_data := Some [("uri", PStr "sheet-1")];
                  req_files := None;
                  req_headers := None;
                  req_auth := None |}].
Proof.
  apply (fresh_client_processes (PStr "https://actgrader.com") (PStr "token")
           example_client (example_world 404) "sheet-1");
    reflexivity.
Defined.

(** ** Downloading, then updating *)

Lemma open_rb_read_found (path : PyVal) (w : World) (p : string)
    (data : list byte) :
  open_target path = Returns (Named p) →
  files (fs w) !! p = Some data →
  (open_rb_read path w).1 = Returns data.
Proof. unfold open_rb_read. intros -> ->. reflexivity. Qed.

(** What [download_marked_answers] has checked and written when it returns
    the response of a request answered with status 200. *)
Lemma download_marked_answers_returned
    (path uri url oauth : PyVal) (w : World) (r : Response) (v : PyVal) :
  (run (DownloadMarkedAnswers path uri url oauth) w).1 = Returns (r, v) →
  status_code r = 200 →
  ∃ p data,
    open_target path = Returns (Named p)
    ∧ content r = PBytes data
    ∧ files (fs (run (DownloadMarkedAnswers path uri url oauth) w).2) !! p
      = Some data
    ∧ validate_url (effective url (self_url (self w))) = Returns true.
Proof.
  wp_start; repeat wp_step; cbn [fs files]; try discriminate;
    intros [= <- <-] Hst;
    repeat match goal with
           | H : (_ =? _) = false |- _ => apply Z.eqb_neq in H
           | H : validate_url _ = Returns ?b |- _ =>
               is_var b; destruct (validate_url_str _ _ H) as [-> _]
           end;
    try contradiction;
    try match goal with
        | H : validate_path _ _ _ = Returns _,
          H' : open_target _ = Returns (Descriptor _) |- _ =>
            apply validate_path_as_path in H as (? & ? & ?); congruence
        end.
  eexists _, _. repeat split; try eassumption.
  apply lookup_insert_eq.
Qed.

(** X17.  After [download_marked_answers] has returned from a response of
    status 200, [update_marked_answers] called with the same arguments on
    the same client sends one PUT request whose file part carries exactly
    the bytes of the downloaded body, under the file name
    [updated_answers.json]. *)
Theorem download_then_update_round_trip
    (path uri url oauth : PyVal) (w w1 : World) (r : Response) (v : PyVal)
    (data : list byte) :
  self_endpoints (self w) = endpoints_table →
  download_marked_answers path uri url oauth w = (Returns (r, v), w1) →
  status_code r = 200 →
  content r = PBytes data →
  ∃ req u,
    sent (update_marked_answers path uri url oauth w1).2 = sent w1 ++ [req]
    ∧ req_method req = PUT
    ∧ effective url (self_url (self w)) = PStr u
    ∧ req_url req = posixpath.join u "api/update/marked_answers"
    ∧ req_data req = Some [("uri", effective uri (self_uri (self w)))]
    ∧ req_files req = Some [("file", ("updated_answers.json", data))].
Proof.
  intros Htable Hdown Hst Hbody.
  assert (self w1 = self w) as Hself.
  { pose proof (operations_do_not_mutate_client_self
                  (DownloadMarkedAnswers path uri url oauth) w) as H.
    cbn [run] in H. rewrite Hdown in H. exact H. }
  destruct (download_marked_answers_returned path uri url oauth w r v)
    as (p & data' & Hopen & Hbody' & Hfile & Hurl); [| assumption |].
  { cbn [run]. rewrite Hdown. reflexivity. }
  cbn [run] in Hfile. rewrite Hdown in Hfile. cbn [snd] in Hfile.
  assert (data' = data) as -> by congruence.
  destruct (validate_url_str _ _ Hurl) as [_ [u Hu]].
  change (update_marked_answers path uri url oauth)
    with (run (UpdateMarkedAnswers path uri url oauth)).
  wp_start; repeat wp_step;
    repeat match goal with
           | H : context [self w1] |- _ => rewrite Hself in H
           end;
    try match goal with
        | H : self_endpoints (self w) !! _ = _ |- _ =>
            rewrite Htable in H; vm_compute in H; simplify_eq
        end;
    try match goal with
        | H : join_endpoint _ _ = _ |- _ =>
            rewrite Hu, join_endpoint_str in H; simplify_eq
        end;
    try match goal with
        | H : (open_rb_read path w1).1 = _ |- _ =>
            rewrite (open_rb_read_found path w1 p data Hopen Hfile) in H;
            simplify_eq
        end.
  all: cbn [sent]; rewrite ?Hself; eexists; exists u; repeat split;
    first [reflexivity | assumption].
Qed.

Lemma download_then_update_round_trip_witness :
  let w := example_world 200 in
  let w1 := (download_marked_answers (PStr "/work/out.json") (PStr "sheet-1")
               PNone PNone w).2 in
  ∃ req u,
    sent (update_marked_answers (PStr "/work/out.json") (PStr "sheet-1")
            PNone PNone w1).2 = sent w1 ++ [req]
    ∧ req_method req = PUT
    ∧ effective PNone (self_url (self w)) = PStr u
    ∧ req_url req = posixpath.join u "api/update/marked_answers"
    ∧ req_data req
      = Some [("uri", effective (PStr "sheet-1") (self_uri (self w)))]
    ∧ req_files req
      = Some [("file", ("updated_answers.json", [x41; x00; xff]%byte))].
Proof.
  intros w w1.
  apply (download_then_update_round_trip (PStr "/work/out.json")
           (PStr "sheet-1") PNone PNone w w1 (example_response 200)
           (PStr "/work/out.json")).
  - reflexivity.
  - vm_compute. reflexivity.
  - reflexivity.
  - reflexivity.
Defined.
